(** * The OTEL integration of drone-runner-aws: log hook and manager lifecycle

    A shallow embedding of package [otel] (logger_hook.go, init.go,
    metrics_exporter.go, exporter.go, resource.go, config.go) and the
    theorems that settle what its specification says about it.

    Conventions of the embedding:
    - Go integers are [Z]; [logrus.Level] (a uint32) and [otellog.Severity]
      (an int) keep their numeric values.
    - Go maps are stdpp [gmap]s; [range] over a map is [go_range].
    - Everything the package does to the outside (logrus calls, the OTEL
      SDK, mutexes, shutdown callbacks) is appended to a trace of [Event]s;
      what the outside answers is read from an [SDK] oracle that may look at
      the trace so far.
    - A Go function that can panic returns an [outcome]. *)

From Stdlib Require Import ZArith Lia.
From stdpp Require Import gmap strings list fin_maps pretty.

Local Open Scope string_scope.
Local Open Scope list_scope.
Local Open Scope Z_scope.

(** ** Go runtime values *)

(** A Go [error] value, identified with the text its [Error()] method
    returns. *)
Inductive error : Type := errorString (s : string).

Definition Error (e : error) : string :=
  match e with errorString s => s end.

(** [fmt.Errorf(prefix + "%w", err)] and [fmt.Errorf(prefix + "%v", x)]. *)
Definition Errorf_w (prefix : string) (err : error) : error :=
  errorString (prefix +:+ Error err).

(** A dynamically typed Go value ([interface{}]), as far as the hook looks
    at it. *)
Inductive Any : Type :=
| ANil
| AString (s : string)
| AInt (z : Z)
| ABool (b : bool)
| AError (e : error).

(** [fmt.Sprintf("%v", v)]. *)
Definition Sprint_v (v : Any) : string :=
  match v with
  | ANil => "<nil>"
  | AString s => s
  | AInt z => pretty z
  | ABool true => "true"
  | ABool false => "false"
  | AError e => Error e
  end.

(** [fmt.Sprintf("%v", errs)] for a slice of errors: [[e1 e2 ...]]. *)
Fixpoint join_space (l : list string) : string :=
  match l with
  | [] => ""
  | [s] => s
  | s :: rest => s +:+ " " +:+ join_space rest
  end.

Definition Sprint_errs (errs : list error) : string :=
  "[" +:+ join_space (Error <$> errs) +:+ "]".

(** The value a panicking goroutine carries; [recover()] yields it. Since
    Go 1.21 it is never nil while panicking. *)
Inductive PanicValue : Type := Panic (v : Any).

Definition PanicValue_Sprint_v (r : PanicValue) : string :=
  match r with Panic v => Sprint_v v end.

(** The runtime error of calling a method through a nil interface or nil
    pointer. *)
Definition nilDereference : PanicValue :=
  Panic (AError (errorString
    "runtime error: invalid memory address or nil pointer dereference")).

(** How a Go call ends: it returns, or it panics. *)
Inductive outcome (A : Type) : Type :=
| Returned (a : A)
| Panicked (r : PanicValue).
Arguments Returned {A} a.
Arguments Panicked {A} r.

(** [recover()] in a deferred function: the panic value, nil when the
    function is not panicking. *)
Definition recover {A} (o : outcome A) : option PanicValue :=
  match o with
  | Returned _ => None
  | Panicked r => Some r
  end.

(** [context.Context]. *)
Inductive Context : Type :=
| Background
| WithTimeout (parent : Context) (nanoseconds : Z)
| WithCancel (parent : Context) (canceled : bool)
| ContextValue (id : nat).

Definition Second : Z := 1000000000.

(** [range m]: some enumeration of the entries of [m], each once. Go leaves
    the order unspecified; the model fixes one. *)
Definition go_range {V} (m : gmap string V) : list (string * V) :=
  map_to_list m.

(** ** logrus, as far as the package uses it *)
Module logrus.

(** [type Level uint32] and its constants. *)
Definition PanicLevel : Z := 0.
Definition FatalLevel : Z := 1.
Definition ErrorLevel : Z := 2.
Definition WarnLevel : Z := 3.
Definition InfoLevel : Z := 4.
Definition DebugLevel : Z := 5.
Definition TraceLevel : Z := 6.

Definition AllLevels : list Z :=
  [PanicLevel; FatalLevel; ErrorLevel; WarnLevel; InfoLevel; DebugLevel;
   TraceLevel].

(** [Level.String()]: the level's name, ["unknown"] for any other
    value. *)
Definition Level_String (level : Z) : string :=
  if level =? TraceLevel then "trace"
  else if level =? DebugLevel then "debug"
  else if level =? InfoLevel then "info"
  else if level =? WarnLevel then "warning"
  else if level =? ErrorLevel then "error"
  else if level =? FatalLevel then "fatal"
  else if level =? PanicLevel then "panic"
  else "unknown".

Definition ErrorKey : string := "error".

(** [runtime.Frame], the fields read by the hook. *)
Record Frame : Type := {
  Function : string;
  File : string;
  Line : Z
}.

(** [*logrus.Logger], the field read by [HasCaller]. *)
Record Logger : Type := {
  ReportCaller : bool
}.

Record Entry : Type := {
  EntryLogger : option Logger;
  Data : gmap string Any;
  Time : Z;
  Level : Z;
  Caller : option Frame;
  Message : string;
  EntryContext : option Context
}.

(** [entry.HasCaller()]. *)
Definition HasCaller (entry : Entry) : bool :=
  match EntryLogger entry with
  | Some lg => ReportCaller lg && bool_decide (is_Some (Caller entry))
  | None => false
  end.

End logrus.

(** ** go.opentelemetry.io/otel/log, as far as the package uses it *)
Module otellog.

(** [type Severity int] and the constants the mapper returns;
    [SeverityFatal1 .. SeverityFatal4] are 21 .. 24, and 24 is the largest
    severity the API defines. *)
Definition SeverityTrace : Z := 1.
Definition SeverityDebug : Z := 5.
Definition SeverityInfo : Z := 9.
Definition SeverityWarn : Z := 13.
Definition SeverityError : Z := 17.
Definition SeverityFatal : Z := 21.
Definition SeverityFatal1 : Z := 21.
Definition SeverityFatal2 : Z := 22.
Definition SeverityFatal3 : Z := 23.
Definition SeverityFatal4 : Z := 24.

(** The fatal class of severities. *)
Definition isFatalClass (s : Z) : bool :=
  (SeverityFatal1 <=? s) && (s <=? SeverityFatal4).

Inductive Value : Type :=
| Empty
| StringValue (s : string)
| IntValue (z : Z).

Record KeyValue : Type := {
  Key : string;
  Val : Value
}.

Definition String (k v : string) : KeyValue :=
  {| Key := k; Val := StringValue v |}.
Definition Int (k : string) (v : Z) : KeyValue :=
  {| Key := k; Val := IntValue v |}.

Record Record : Type := {
  Timestamp : Z;
  Body : Value;
  Severity : Z;
  SeverityText : string;
  Attributes : list KeyValue
}.

(** [var record otellog.Record]. *)
Definition zeroRecord : Record :=
  {| Timestamp := 0; Body := Empty; Severity := 0; SeverityText := "";
     Attributes := [] |}.

Definition SetTimestamp (t : Z) (r : Record) : Record :=
  {| Timestamp := t; Body := Body r; Severity := Severity r;
     SeverityText := SeverityText r; Attributes := Attributes r |}.
Definition SetBody (v : Value) (r : Record) : Record :=
  {| Timestamp := Timestamp r; Body := v; Severity := Severity r;
     SeverityText := SeverityText r; Attributes := Attributes r |}.
Definition SetSeverity (s : Z) (r : Record) : Record :=
  {| Timestamp := Timestamp r; Body := Body r; Severity := s;
     SeverityText := SeverityText r; Attributes := Attributes r |}.
Definition SetSeverityText (s : string) (r : Record) : Record :=
  {| Timestamp := Timestamp r; Body := Body r; Severity := Severity r;
     SeverityText := s; Attributes := Attributes r |}.
Definition AddAttributes (attrs : list KeyValue) (r : Record) : Record :=
  {| Timestamp := Timestamp r; Body := Body r; Severity := Severity r;
     SeverityText := SeverityText r; Attributes := Attributes r ++ attrs |}.

End otellog.

(** ** logger_hook.go: the severity mapper *)

(** [mapLogrusLevel]: the [switch] with its [default] branch. *)
Definition mapLogrusLevel (level : Z) : Z :=
  if level =? logrus.TraceLevel then otellog.SeverityTrace
  else if level =? logrus.DebugLevel then otellog.SeverityDebug
  else if level =? logrus.InfoLevel then otellog.SeverityInfo
  else if level =? logrus.WarnLevel then otellog.SeverityWarn
  else if level =? logrus.ErrorLevel then otellog.SeverityError
  else if level =? logrus.FatalLevel then otellog.SeverityFatal
  else if level =? logrus.PanicLevel then otellog.SeverityFatal4
  else otellog.SeverityInfo.

(** ** The OTEL SDK objects the package builds, named by their constructors *)
Module sdk.

(** go.opentelemetry.io/otel/sdk/resource *)
Inductive ResourceOption : Type :=
| WithAttributes (attrs : list (string * string))
| WithProcessRuntimeDescription
| WithOS
| WithHost.

Record Resource : Type := {
  ResourceAttributes : list (string * string)
}.

(** The OTLP exporters (otlploghttp, otlploggrpc, otlpmetrichttp,
    otlpmetricgrpc) and their options. *)
Inductive Transport : Type := HTTP | GRPC.

Inductive ExporterOption : Type :=
| WithEndpoint (endpoint : string)
| WithInsecure
| WithHeaders (headers : gmap string string).

Inductive LogExporter : Type :=
| OtlpLogExporter (t : Transport) (opts : list ExporterOption)
| OtherLogExporter (id : nat).

Inductive MetricExporter : Type :=
| OtlpMetricExporter (t : Transport) (opts : list ExporterOption).

(** go.opentelemetry.io/otel/sdk/log *)
Inductive Processor : Type :=
| NewBatchProcessor (exporter : LogExporter) (exportTimeout : Z)
| NewSimpleProcessor (exporter : LogExporter).

Inductive LoggerProviderOption : Type :=
| WithProcessor (p : Processor)
| WithResource (res : option Resource).

Inductive LoggerProvider : Type :=
| NewLoggerProvider (opts : list LoggerProviderOption).

(** [provider.Logger(name)]. *)
Inductive Logger : Type :=
| ProviderLogger (provider : LoggerProvider) (name : string).

(** go.opentelemetry.io/otel/sdk/metric *)
Inductive Reader : Type :=
| NewPeriodicReader (exporter : MetricExporter) (interval timeout : Z)
| NewManualReader.

Inductive MeterOption : Type :=
| WithReader (r : Reader)
| WithMeterResource (res : option Resource).

Inductive MeterProvider : Type :=
| NewMeterProvider (opts : list MeterOption).

End sdk.

(** ** config.go *)
Record Config : Type := {
  Enabled : bool;
  Endpoint : string;
  Protocol : string;
  Insecure : bool;
  ExportLogs : bool;
  ExportMetrics : bool;
  ServiceName : string;
  ServiceVersion : string;
  Environment : string;
  Headers : gmap string string
}.

(** ** logger_hook.go and metrics_exporter.go: the two components *)

Definition logExportTimeout : Z := 10 * Second.
Definition logHookCloseTimeout : Z := 15 * Second.
Definition DefaultMetricsExportInterval : Z := 30 * Second.
Definition metricExportTimeout : Z := 30 * Second.

(** [OTELLogHook]; [contextMu] is the pair of events [EvRLock]/[EvRUnlock]
    and [EvLock]/[EvUnlock] below. A nil [otelLogger] interface and a nil
    [loggerProvider] pointer are [None]; [context] is the map every
    constructor allocates. *)
Record OTELLogHook : Type := {
  loggerProvider : option sdk.LoggerProvider;
  otelLogger : option sdk.Logger;
  context : gmap string string
}.

Record MetricsBridge : Type := {
  meterProvider : option sdk.MeterProvider
}.

(** ** The outside world *)

(** What the package does to the outside, in the order it does it. *)
Inductive Event : Type :=
| EvLogrus (level : Z) (msg : string) (err : option error)
| EvSetErrorHandler
| EvAddHook (logger : option logrus.Logger) (hook : OTELLogHook)
| EvRLock
| EvRUnlock
| EvLock
| EvUnlock
| EvMuLock
| EvMuUnlock
| EvResourceNew (ctx : Context) (opts : list sdk.ResourceOption)
| EvLogExporterNew (t : sdk.Transport) (ctx : Context)
    (opts : list sdk.ExporterOption)
| EvMetricExporterNew (t : sdk.Transport) (ctx : Context)
    (opts : list sdk.ExporterOption)
| EvEmit (logger : sdk.Logger) (ctx : Context) (record : otellog.Record)
| EvLoggerProviderShutdown (p : option sdk.LoggerProvider) (ctx : Context)
| EvMeterProviderShutdown (p : option sdk.MeterProvider) (ctx : Context)
| EvShutdownFunc (index : nat) (ctx : Context).

Definition World : Type := list Event.

(** What [Logger.Emit] does inside the SDK. It has no result: a record the
    exporter could not ship is reported to the global error handler, not to
    the caller. *)
Inductive EmitResult : Type :=
| Exported
| ExportFailed (e : error)
| EmitPanicked (r : PanicValue).

(** The answers of the outside world; each may depend on what happened
    before. A constructor call answers at its Go result type. A teardown
    call runs processors, readers and exporters, which may be the caller's
    own code: it returns its [error] result, or it faults. *)
Class SDK : Type := {
  sdk_resource_New :
    Context → list sdk.ResourceOption → World →
    option sdk.Resource * option error;
  sdk_otlplog_New :
    sdk.Transport → Context → list sdk.ExporterOption → World → option error;
  sdk_otlpmetric_New :
    sdk.Transport → Context → list sdk.ExporterOption → World → option error;
  sdk_Logger_Emit :
    sdk.Logger → Context → otellog.Record → World → EmitResult;
  sdk_LoggerProvider_Shutdown :
    sdk.LoggerProvider → Context → World → outcome (option error);
  sdk_MeterProvider_Shutdown :
    sdk.MeterProvider → Context → World → outcome (option error);
  sdk_LogExporter_Shutdown :
    sdk.LogExporter → Context → World → outcome (option error);
  sdk_MetricExporter_Shutdown :
    sdk.MetricExporter → Context → World → outcome (option error)
}.

(** [type shutdownFunc func(ctx context.Context) error]: any function of the
    caller, so a call of it returns or faults (a nil function value faults
    when called). *)
Definition shutdownFunc : Type := Context → World → outcome (option error).

(** ** init.go: the manager and the package state *)
Record manager : Type := {
  logHook : option OTELLogHook;
  metricsBridge : option MetricsBridge;
  shutdownFuncs : list shutdownFunc;
  config : Config
}.

(** The assignments [mgr.logHook = hook] and [mgr.metricsBridge = bridge]. *)
Definition set_logHook (hook : option OTELLogHook) (m : manager) : manager :=
  {| logHook := hook; metricsBridge := metricsBridge m;
     shutdownFuncs := shutdownFuncs m; config := config m |}.

Definition set_metricsBridge (bridge : option MetricsBridge) (m : manager)
  : manager :=
  {| logHook := logHook m; metricsBridge := bridge;
     shutdownFuncs := shutdownFuncs m; config := config m |}.

(** The package variable [activeManager] and the trace of the outside
    world. *)
Record State : Type := {
  activeManager : option manager;
  trace : World
}.

(** Go's multiple results [(value, error)] where exactly one is set. *)
Inductive result (A : Type) : Type :=
| Ok (a : A)
| Err (e : error).
Arguments Ok {A} a.
Arguments Err {A} e.

(** State passing. *)
Definition M (A : Type) : Type := State → A * State.

Definition ret {A} (a : A) : M A := λ st, (a, st).

Definition bind {A B} (c : M A) (k : A → M B) : M B :=
  λ st, let '(a, st') := c st in k a st'.

Notation "'let*' x ':=' c 'in' k" := (bind c (λ x, k))
  (at level 10, x pattern, c at level 100, k at level 200).

(** Append one event to the trace. *)
Definition event (e : Event) : M unit :=
  λ st, (tt, {| activeManager := activeManager st; trace := trace st ++ [e] |}).

(** Ask the outside world, given the trace so far. *)
Definition ask {A} (f : World → A) : M A :=
  λ st, (f (trace st), st).

Definition getActiveManager : M (option manager) :=
  λ st, (activeManager st, st).

Definition setActiveManager (m : option manager) : M unit :=
  λ st, (tt, {| activeManager := m; trace := trace st |}).

(** Sequencing of calls that may panic: a panic skips the rest. *)
Definition bindP {A B} (c : M (outcome A)) (k : A → M (outcome B))
  : M (outcome B) :=
  let* o := c in
  match o with
  | Returned a => k a
  | Panicked r => ret (Panicked r)
  end.

Notation "'let!' x ':=' c 'in' k" := (bindP c (λ x, k))
  (at level 10, x pattern, c at level 100, k at level 200).

(** A call that cannot panic, inside a body that can. *)
Definition returns {A} (c : M A) : M (outcome A) :=
  let* a := c in ret (Returned a).

(** [defer d()] over the rest of a function: [d] runs when the rest ends,
    whether it returns or panics, and the function ends the same way. *)
Definition deferred {A} (d : M unit) (body : M (outcome A)) : M (outcome A) :=
  let* o := body in
  let* _ := d in
  ret o.

(** [logrus.Info], [logrus.WithError(err).Warn] and the like: one line of
    the application log. *)
Definition logrus_log (level : Z) (msg : string) (err : option error)
  : M unit :=
  event (EvLogrus level msg err).

(** ** logger_hook.go: the hook *)

(** [NewOTELLogHook] and [newOTELLogHookFromExporter]; the public
    constructor ignores its resource argument. *)
Definition newOTELLogHookFromExporter (exporter : sdk.LogExporter)
    (opts : list sdk.LoggerProviderOption) : result OTELLogHook :=
  let providerOpts :=
    [sdk.WithProcessor (sdk.NewBatchProcessor exporter logExportTimeout)] in
  let providerOpts := providerOpts ++ opts in
  let provider := sdk.NewLoggerProvider providerOpts in
  let otelLogger := sdk.ProviderLogger provider "drone-runner-aws" in
  Ok {| loggerProvider := Some provider;
        otelLogger := Some otelLogger;
        context := ∅ |}.

Definition NewOTELLogHook (exporter : sdk.LogExporter)
    (res : option sdk.Resource) (opts : list sdk.LoggerProviderOption)
  : result OTELLogHook :=
  newOTELLogHookFromExporter exporter opts.

(** [NewOTELLogHookWithProvider]: the argument is a pointer and may be nil;
    [provider.Logger] then faults, inside the constructor. *)
Definition NewOTELLogHookWithProvider (provider : option sdk.LoggerProvider)
  : outcome OTELLogHook :=
  match provider with
  | Some p =>
      Returned {| loggerProvider := Some p;
                  otelLogger := Some (sdk.ProviderLogger p "drone-runner-aws");
                  context := ∅ |}
  | None => Panicked nilDereference
  end.

(** [Levels]. *)
Definition Levels (h : OTELLogHook) : list Z := logrus.AllLevels.

Section WithSDK.
Context `{SDK}.

(** [h.otelLogger.Emit(ctx, record)]: a call through a nil interface
    panics before it reaches the SDK. *)
Definition Logger_Emit (l : option sdk.Logger) (ctx : Context)
    (record : otellog.Record) : M (outcome unit) :=
  match l with
  | None => ret (Panicked nilDereference)
  | Some lg =>
      let* r := ask (sdk_Logger_Emit lg ctx record) in
      let* _ := event (EvEmit lg ctx record) in
      match r with
      | EmitPanicked p => ret (Panicked p)
      | Exported | ExportFailed _ => ret (Returned tt)
      end
  end.

(** The body of [Fire], below its deferred function. [entry] is a non-nil
    [*logrus.Entry], as logrus hands it to its hooks, and an error among
    its fields is a value whose [Error] method returns its text. *)
Definition Fire_body (h : OTELLogHook) (entry : logrus.Entry)
  : M (outcome (option error)) :=
  let ctx := match logrus.EntryContext entry with
             | Some c => c
             | None => Background
             end in
  let record := otellog.zeroRecord in
  let record := otellog.SetTimestamp (logrus.Time entry) record in
  let record :=
    otellog.SetBody (otellog.StringValue (logrus.Message entry)) record in
  let record :=
    otellog.SetSeverity (mapLogrusLevel (logrus.Level entry)) record in
  let record :=
    otellog.SetSeverityText (logrus.Level_String (logrus.Level entry))
      record in
  let attrs : list otellog.KeyValue := [] in
  let attrs :=
    foldl (λ attrs kv, attrs ++ [otellog.String kv.1 (Sprint_v kv.2)])
      attrs (go_range (logrus.Data entry)) in
  let! _ := returns (event EvRLock) in
  let attrs :=
    foldl (λ attrs kv, attrs ++ [otellog.String kv.1 kv.2])
      attrs (go_range (context h)) in
  let! _ := returns (event EvRUnlock) in
  let! attrs :=
    if logrus.HasCaller entry then
      match logrus.Caller entry with
      | Some caller =>
          ret (Returned (attrs ++
            [otellog.String "code.filepath" (logrus.File caller);
             otellog.String "code.function" (logrus.Function caller);
             otellog.Int "code.lineno" (logrus.Line caller)]))
      | None => ret (Panicked nilDereference)
      end
    else ret (Returned attrs) in
  let attrs :=
    match logrus.Data entry !! logrus.ErrorKey with
    | Some errValue =>
        match errValue with
        | AError err =>
            attrs ++ [otellog.String "exception.message" (Error err)]
        | _ => attrs
        end
    | None => attrs
    end in
  let record := otellog.AddAttributes attrs record in
  let! _ := Logger_Emit (otelLogger h) ctx record in
  ret (Returned None).

(** [Fire]: the body under [defer func() { if r := recover(); r != nil
    {...} }()], with the named result [retErr]. *)
Definition Fire (h : OTELLogHook) (entry : logrus.Entry)
  : M (option error) :=
  let* o := Fire_body h entry in
  let retErr := match o with
                | Returned e => e
                | Panicked _ => None
                end in
  match recover o with
  | Some r =>
      ret (Some (errorString
                   ("otel log hook panic: " +:+ PanicValue_Sprint_v r)))
  | None => ret retErr
  end.

(** What [p.Shutdown(ctx)] answers on a provider pointer [p]: through a nil
    pointer the method faults at its first read of the provider. *)
Definition LoggerProvider_Shutdown_answer (p : option sdk.LoggerProvider)
    (ctx : Context) : World → outcome (option error) :=
  match p with
  | Some provider => sdk_LoggerProvider_Shutdown provider ctx
  | None => λ _, Panicked nilDereference
  end.

(** [h.loggerProvider.Shutdown(ctx)]. *)
Definition LoggerProvider_Shutdown (p : option sdk.LoggerProvider)
    (ctx : Context) : M (outcome (option error)) :=
  let* r := ask (LoggerProvider_Shutdown_answer p ctx) in
  let* _ := event (EvLoggerProviderShutdown p ctx) in
  ret r.

(** [Close]; the deferred [cancel] only releases the timeout context. *)
Definition Close (h : OTELLogHook) : M (outcome (option error)) :=
  let ctx := WithTimeout Background logHookCloseTimeout in
  LoggerProvider_Shutdown (loggerProvider h) ctx.

(** ** metrics_exporter.go *)

Definition newMetricsBridgeFromReader (reader : sdk.Reader)
    (opts : list sdk.MeterOption) : result MetricsBridge :=
  let providerOpts := [sdk.WithReader reader] in
  let providerOpts := providerOpts ++ opts in
  let provider := sdk.NewMeterProvider providerOpts in
  Ok {| meterProvider := Some provider |}.

Definition NewMetricsBridge (reader : sdk.Reader) (res : option sdk.Resource)
    (opts : list sdk.MeterOption) : result MetricsBridge :=
  newMetricsBridgeFromReader reader opts.

(** [NewMetricsBridgeWithProvider]: the pointer is stored as it is, nil
    included. *)
Definition NewMetricsBridgeWithProvider (provider : option sdk.MeterProvider)
  : MetricsBridge :=
  {| meterProvider := provider |}.

Definition GetMeterProvider (b : MetricsBridge)
  : option sdk.MeterProvider :=
  meterProvider b.

(** What [p.Shutdown(ctx)] answers on a meter provider pointer [p]; a nil
    pointer faults as for the logger provider. *)
Definition MeterProvider_Shutdown_answer (p : option sdk.MeterProvider)
    (ctx : Context) : World → outcome (option error) :=
  match p with
  | Some provider => sdk_MeterProvider_Shutdown provider ctx
  | None => λ _, Panicked nilDereference
  end.

(** [MetricsBridge.Shutdown]. *)
Definition MetricsBridge_Shutdown (b : MetricsBridge) (ctx : Context)
  : M (outcome (option error)) :=
  let* r := ask (MeterProvider_Shutdown_answer (meterProvider b) ctx) in
  let* _ := event (EvMeterProviderShutdown (meterProvider b) ctx) in
  ret r.

End WithSDK.

(** [UpdateContext]: the hook is updated in place, so the model returns
    it. *)
Definition UpdateContext (ctxMap : gmap string string) (h : OTELLogHook)
  : M OTELLogHook :=
  let* _ := event EvLock in
  let h :=
    foldl (λ h kv,
             {| loggerProvider := loggerProvider h;
                otelLogger := otelLogger h;
                context := <[kv.1 := kv.2]> (context h) |})
      h (go_range ctxMap) in
  let* _ := event EvUnlock in
  ret h.

(** A caller making one [UpdateContext] call after another. *)
Fixpoint UpdateContext_calls (calls : list (gmap string string))
    (h : OTELLogHook) : M OTELLogHook :=
  match calls with
  | [] => ret h
  | ctxMap :: rest =>
      let* h := UpdateContext ctxMap h in
      UpdateContext_calls rest h
  end.

(** ** logger_hook_test.go: the helper the tests look for the marker with *)

(** The loop [for i := 0; i <= len(s)-len(substr); i++], with [n]
    iterations left. *)
Fixpoint containsSubstring_loop (n : nat) (i : nat) (s substr : string)
  : bool :=
  match n with
  | O => false
  | S n' =>
      if String.eqb (String.substring i (String.length substr) s) substr
      then true
      else containsSubstring_loop n' (S i) s substr
  end.

Definition containsSubstring (s substr : string) : bool :=
  let last :=
    Z.of_nat (String.length s) - Z.of_nat (String.length substr) in
  if last <? 0 then false
  else containsSubstring_loop (Z.to_nat last + 1) 0 s substr.

(** ** exporter.go, resource.go and init.go *)

Definition protocolHTTP : string := "http".

Section WithSDK.
Context `{SDK}.

(** [createLogExporter]. *)
Definition createLogExporter (ctx : Context) (config : Config)
  : M (result (sdk.LogExporter * shutdownFunc)) :=
  if String.eqb (Protocol config) protocolHTTP then
    let opts := [sdk.WithEndpoint (Endpoint config)] in
    let opts := if Insecure config then opts ++ [sdk.WithInsecure]
                else opts in
    let opts := if (0 <? size (Headers config))%nat
                then opts ++ [sdk.WithHeaders (Headers config)]
                else opts in
    let* err := ask (sdk_otlplog_New sdk.HTTP ctx opts) in
    let* _ := event (EvLogExporterNew sdk.HTTP ctx opts) in
    match err with
    | Some e =>
        ret (Err (Errorf_w "failed to create OTLP HTTP log exporter: " e))
    | None =>
        let exp := sdk.OtlpLogExporter sdk.HTTP opts in
        ret (Ok (exp, sdk_LogExporter_Shutdown exp))
    end
  else
    let opts := [sdk.WithEndpoint (Endpoint config)] in
    let opts := if Insecure config then opts ++ [sdk.WithInsecure]
                else opts in
    let opts := if (0 <? size (Headers config))%nat
                then opts ++ [sdk.WithHeaders (Headers config)]
                else opts in
    let* err := ask (sdk_otlplog_New sdk.GRPC ctx opts) in
    let* _ := event (EvLogExporterNew sdk.GRPC ctx opts) in
    match err with
    | Some e =>
        ret (Err (Errorf_w "failed to create OTLP gRPC log exporter: " e))
    | None =>
        let exp := sdk.OtlpLogExporter sdk.GRPC opts in
        ret (Ok (exp, sdk_LogExporter_Shutdown exp))
    end.

(** [createMetricReader]. *)
Definition createMetricReader (ctx : Context) (config : Config)
  : M (result (sdk.Reader * shutdownFunc)) :=
  if String.eqb (Protocol config) protocolHTTP then
    let opts := [sdk.WithEndpoint (Endpoint config)] in
    let opts := if Insecure config then opts ++ [sdk.WithInsecure]
                else opts in
    let opts := if (0 <? size (Headers config))%nat
                then opts ++ [sdk.WithHeaders (Headers config)]
                else opts in
    let* err := ask (sdk_otlpmetric_New sdk.HTTP ctx opts) in
    let* _ := event (EvMetricExporterNew sdk.HTTP ctx opts) in
    match err with
    | Some e =>
        ret (Err
               (Errorf_w "failed to create OTLP HTTP metric exporter: " e))
    | None =>
        let exporter := sdk.OtlpMetricExporter sdk.HTTP opts in
        let reader :=
          sdk.NewPeriodicReader exporter DefaultMetricsExportInterval
            metricExportTimeout in
        ret (Ok (reader, sdk_MetricExporter_Shutdown exporter))
    end
  else
    let opts := [sdk.WithEndpoint (Endpoint config)] in
    let opts := if Insecure config then opts ++ [sdk.WithInsecure]
                else opts in
    let opts := if (0 <? size (Headers config))%nat
                then opts ++ [sdk.WithHeaders (Headers config)]
                else opts in
    let* err := ask (sdk_otlpmetric_New sdk.GRPC ctx opts) in
    let* _ := event (EvMetricExporterNew sdk.GRPC ctx opts) in
    match err with
    | Some e =>
        ret (Err
               (Errorf_w "failed to create OTLP gRPC metric exporter: " e))
    | None =>
        let exporter := sdk.OtlpMetricExporter sdk.GRPC opts in
        let reader :=
          sdk.NewPeriodicReader exporter DefaultMetricsExportInterval
            metricExportTimeout in
        ret (Ok (reader, sdk_MetricExporter_Shutdown exporter))
    end.

(** [NewResource]. *)
Definition NewResource (ctx : Context) (config : Config) (version : string)
  : M (option sdk.Resource * option error) :=
  let attrs := [("service.name", ServiceName config)] in
  let attrs := if negb (String.eqb version "")
               then attrs ++ [("service.version", version)]
               else attrs in
  let attrs := if negb (String.eqb (Environment config) "")
               then attrs ++ [("deployment.environment", Environment config)]
               else attrs in
  let opts := [sdk.WithAttributes attrs; sdk.WithProcessRuntimeDescription;
               sdk.WithOS; sdk.WithHost] in
  let* r := ask (sdk_resource_New ctx opts) in
  let* _ := event (EvResourceNew ctx opts) in
  ret r.

(** The loop [for _, fn := range m.shutdownFuncs] of [shutdown], at the
    callback of index [i]. *)
Fixpoint shutdown_loop (ctx : Context) (fns : list shutdownFunc) (i : nat)
    (errs : list error) : M (outcome (list error)) :=
  match fns with
  | [] => ret (Returned errs)
  | fn :: rest =>
      let! err := (let* r := ask (fn ctx) in
                   let* _ := event (EvShutdownFunc i ctx) in
                   ret r) in
      let errs := match err with
                  | Some e => errs ++ [Errorf_w "exporter shutdown: " e]
                  | None => errs
                  end in
      shutdown_loop ctx rest (S i) errs
  end.

(** [(m *manager) shutdown]. Nothing in it recovers: a teardown call that
    faults ends it there. *)
Definition manager_shutdown (m : option manager) (ctx : Context)
  : M (outcome (option error)) :=
  match m with
  | None => ret (Returned None)
  | Some m =>
      let* _ :=
        logrus_log logrus.InfoLevel "Shutting down OTEL integration" None in
      let errs : list error := [] in
      let! errs :=
        match logHook m with
        | Some hook =>
            let! err := Close hook in
            match err with
            | Some e =>
                ret (Returned (errs ++ [Errorf_w "log hook shutdown: " e]))
            | None => ret (Returned errs)
            end
        | None => ret (Returned errs)
        end in
      let! errs :=
        match metricsBridge m with
        | Some bridge =>
            let! err := MetricsBridge_Shutdown bridge ctx in
            match err with
            | Some e =>
                ret (Returned
                       (errs ++ [Errorf_w "metrics bridge shutdown: " e]))
            | None => ret (Returned errs)
            end
        | None => ret (Returned errs)
        end in
      let! errs := shutdown_loop ctx (shutdownFuncs m) 0 errs in
      if (0 <? length errs)%nat then
        ret (Returned (Some (errorString
                               ("OTEL shutdown errors: "
                                +:+ Sprint_errs errs))))
      else ret (Returned None)
  end.

(** [Start]. The two guards return before the mutex is taken; after them
    the body runs under [mu.Lock()] with [defer mu.Unlock()]. *)
Definition Start (ctx : Context) (config : Config) (version : string)
    (logger : option logrus.Logger) : M (outcome (option error)) :=
  if negb (Enabled config) then
    let* _ :=
      logrus_log logrus.InfoLevel "OTEL integration is disabled" None in
    ret (Returned None)
  else if String.eqb (Endpoint config) "" then
    ret (Returned
           (Some (errorString
                    "OTEL is enabled but DRONE_OTEL_ENDPOINT is not set")))
  else
    let* _ := event EvMuLock in
    deferred (event EvMuUnlock) (
    let* am := getActiveManager in
    let! _ :=
      match am with
      | Some m =>
          let* _ :=
            logrus_log logrus.InfoLevel
              "Shutting down previous OTEL manager before reinitializing"
              None in
          let! err := manager_shutdown (Some m) ctx in
          let* _ :=
            match err with
            | Some e =>
                logrus_log logrus.WarnLevel
                  "Failed to shutdown previous OTEL manager" (Some e)
            | None => ret tt
            end in
          returns (setActiveManager None)
      | None => ret (Returned tt)
      end in
    let* _ :=
      logrus_log logrus.InfoLevel
        ("Initializing OTEL integration: endpoint=" +:+ Endpoint config
         +:+ ", protocol=" +:+ Protocol config) None in
    let* _ := event EvSetErrorHandler in
    let mgr := {| logHook := None; metricsBridge := None;
                  shutdownFuncs := []; config := config |} in
    let* (res, err) := NewResource ctx config version in
    let* _ :=
      match err with
      | Some e =>
          logrus_log logrus.WarnLevel
            "Failed to create OTEL resource, using default" (Some e)
      | None => ret tt
      end in
    let* mgr :=
      if ExportLogs config then
        let* r := createLogExporter ctx config in
        match r with
        | Err e =>
            let* _ :=
              logrus_log logrus.ErrorLevel
                "Failed to create OTLP log exporter" (Some e) in
            ret mgr
        | Ok (logExporter, _) =>
            match newOTELLogHookFromExporter logExporter
                    [sdk.WithResource res] with
            | Err e =>
                let* _ :=
                  logrus_log logrus.ErrorLevel
                    "Failed to create OTEL log hook" (Some e) in
                ret mgr
            | Ok hook =>
                let* _ := event (EvAddHook logger hook) in
                let mgr := set_logHook (Some hook) mgr in
                let* _ :=
                  logrus_log logrus.InfoLevel "OTEL log export enabled"
                    None in
                ret mgr
            end
        end
      else ret mgr in
    let* mgr :=
      if ExportMetrics config then
        let* r := createMetricReader ctx config in
        match r with
        | Err e =>
            let* _ :=
              logrus_log logrus.ErrorLevel
                "Failed to create OTLP metric reader" (Some e) in
            ret mgr
        | Ok (metricReader, _) =>
            match newMetricsBridgeFromReader metricReader
                    [sdk.WithMeterResource res] with
            | Err e =>
                let* _ :=
                  logrus_log logrus.ErrorLevel
                    "Failed to create OTEL metrics bridge" (Some e) in
                ret mgr
            | Ok bridge =>
                let mgr := set_metricsBridge (Some bridge) mgr in
                let* _ :=
                  logrus_log logrus.InfoLevel "OTEL metric export enabled"
                    None in
                ret mgr
            end
        end
      else ret mgr in
    let* _ := setActiveManager (Some mgr) in
    let* _ :=
      logrus_log logrus.InfoLevel
        ("OTEL integration initialized successfully (endpoint="
         +:+ Endpoint config +:+ ")") None in
    ret (Returned None)).

(** [Shutdown]: [mu.Unlock()] is deferred, the assignment
    [activeManager = nil] is not. *)
Definition Shutdown (ctx : Context) : M (outcome (option error)) :=
  let* _ := event EvMuLock in
  deferred (event EvMuUnlock) (
  let* am := getActiveManager in
  match am with
  | None => ret (Returned None)
  | Some m =>
      let! err := manager_shutdown (Some m) ctx in
      let* _ := setActiveManager None in
      ret (Returned err)
  end).

(** [GetMetricsBridge] and [GetLogHook]. *)
Definition GetMetricsBridge : M (option MetricsBridge) :=
  let* _ := event EvMuLock in
  let* am := getActiveManager in
  let* _ := event EvMuUnlock in
  match am with
  | None => ret None
  | Some m => ret (metricsBridge m)
  end.

Definition GetLogHook : M (option OTELLogHook) :=
  let* _ := event EvMuLock in
  let* am := getActiveManager in
  let* _ := event EvMuUnlock in
  match am with
  | None => ret None
  | Some m => ret (logHook m)
  end.

End WithSDK.

(** ** The record of one entry, in the words of the specification *)

(** The context of the call: the entry's own, the background context when it
    carries none. *)
Definition resolved_context (entry : logrus.Entry) : Context :=
  default Background (logrus.EntryContext entry).

(** Every structured field, coerced to text. *)
Definition field_attrs (entry : logrus.Entry) : list otellog.KeyValue :=
  (λ kv, otellog.String kv.1 (Sprint_v kv.2)) <$> go_range (logrus.Data entry).

(** The label map of the hook. *)
Definition label_attrs (h : OTELLogHook) : list otellog.KeyValue :=
  (λ kv, otellog.String kv.1 kv.2) <$> go_range (context h).

(** Caller file, function and line, when the entry has a caller. *)
Definition caller_attrs (entry : logrus.Entry) : list otellog.KeyValue :=
  if logrus.HasCaller entry then
    match logrus.Caller entry with
    | Some caller =>
        [otellog.String "code.filepath" (logrus.File caller);
         otellog.String "code.function" (logrus.Function caller);
         otellog.Int "code.lineno" (logrus.Line caller)]
    | None => []
    end
  else [].

(** One exception message, when the field under the error key is an
    error. *)
Definition exception_attrs (entry : logrus.Entry) : list otellog.KeyValue :=
  match logrus.Data entry !! logrus.ErrorKey with
  | Some (AError err) => [otellog.String "exception.message" (Error err)]
  | _ => []
  end.

Definition entry_record (h : OTELLogHook) (entry : logrus.Entry)
  : otellog.Record :=
  {| otellog.Timestamp := logrus.Time entry;
     otellog.Body := otellog.StringValue (logrus.Message entry);
     otellog.Severity := mapLogrusLevel (logrus.Level entry);
     otellog.SeverityText := logrus.Level_String (logrus.Level entry);
     otellog.Attributes :=
       field_attrs entry ++ label_attrs h ++ caller_attrs entry
       ++ exception_attrs entry |}.

(** ** Ordered teardown, in the words of the specification *)

(** A teardown step: the call it makes and how the call ends, given the
    trace before it; an error it returns is already wrapped the way
    [shutdown] records it. *)
Definition TeardownStep : Type := Event * (World → outcome (option error)).

(** The error of a step, under the name of the step. *)
Definition wrapped (prefix : string) (o : outcome (option error))
  : outcome (option error) :=
  match o with
  | Returned err => Returned (Errorf_w prefix <$> err)
  | Panicked p => Panicked p
  end.

(** The auxiliary callbacks, in registration order from index [i]. *)
Fixpoint callback_steps (ctx : Context) (fns : list shutdownFunc) (i : nat)
  : list TeardownStep :=
  match fns with
  | [] => []
  | fn :: rest =>
      (EvShutdownFunc i ctx, λ w, wrapped "exporter shutdown: " (fn ctx w))
      :: callback_steps ctx rest (S i)
  end.

(** (1) the log hook if present, (2) the metrics bridge if present, (3) every
    auxiliary callback. *)
Definition teardown_steps `{SDK} (m : manager) (ctx : Context)
  : list TeardownStep :=
  match logHook m with
  | Some hook =>
      let c := WithTimeout Background logHookCloseTimeout in
      [(EvLoggerProviderShutdown (loggerProvider hook) c,
        λ w, wrapped "log hook shutdown: "
               (LoggerProvider_Shutdown_answer (loggerProvider hook) c w))]
  | None => []
  end
  ++ match metricsBridge m with
     | Some bridge =>
         [(EvMeterProviderShutdown (meterProvider bridge) ctx,
           λ w, wrapped "metrics bridge shutdown: "
                  (MeterProvider_Shutdown_answer (meterProvider bridge) ctx
                     w))]
     | None => []
     end
  ++ callback_steps ctx (shutdownFuncs m) 0.

(** The failures of the steps, in order: a step that returns an error is
    recorded and the next step is asked all the same, at the trace extended
    by the call. *)
Fixpoint failures (steps : list TeardownStep) (w : World) : list error :=
  match steps with
  | [] => []
  | (e, answer) :: rest =>
      match answer w with
      | Returned (Some err) => [err]
      | _ => []
      end ++ failures rest (w ++ [e])
  end.

(** No step faults: every step, asked at the trace the steps before it
    left, returns. *)
Definition no_fault (steps : list TeardownStep) (w : World) : Prop :=
  ∀ i e answer,
    steps !! i = Some (e, answer) →
    ∃ err, answer (w ++ take i steps.*1) = Returned err.

(** The steps as [shutdown] runs them: in order, each call appended to the
    trace; a step that faults ends the run, and the steps after it are not
    called. *)
Fixpoint run_steps (steps : list TeardownStep) (w : World)
  : outcome (list error) * World :=
  match steps with
  | [] => (Returned [], w)
  | (e, answer) :: rest =>
      match answer w with
      | Returned err =>
          let r := run_steps rest (w ++ [e]) in
          (match r.1 with
           | Returned errs => Returned (option_list err ++ errs)
           | Panicked p => Panicked p
           end, r.2)
      | Panicked p => (Panicked p, w ++ [e])
      end
  end.

(** All collected failures joined into one error, none when nothing
    failed. *)
Definition joined_error (errs : list error) : option error :=
  match errs with
  | [] => None
  | _ :: _ =>
      Some (errorString ("OTEL shutdown errors: " +:+ Sprint_errs errs))
  end.

(** ** The exporter of a configuration, in the words of the specification *)

(** The transport: [http] when asked for, gRPC otherwise. *)
Definition transport_of (config : Config) : sdk.Transport :=
  if String.eqb (Protocol config) protocolHTTP then sdk.HTTP else sdk.GRPC.

(** Endpoint, then the insecure flag and the headers when set. *)
Definition exporter_options (config : Config) : list sdk.ExporterOption :=
  [sdk.WithEndpoint (Endpoint config)]
  ++ (if Insecure config then [sdk.WithInsecure] else [])
  ++ (if (0 <? size (Headers config))%nat
      then [sdk.WithHeaders (Headers config)] else []).

(** The attributes [NewResource] asks for. *)
Definition resource_options (config : Config) (version : string)
  : list sdk.ResourceOption :=
  [sdk.WithAttributes
     ([("service.name", ServiceName config)]
      ++ (if String.eqb version "" then []
          else [("service.version", version)])
      ++ (if String.eqb (Environment config) "" then []
          else [("deployment.environment", Environment config)]));
   sdk.WithProcessRuntimeDescription; sdk.WithOS; sdk.WithHost].

(** ** Callers and observers *)

(** A caller firing the hook once per entry, collecting what [Fire]
    returns. *)
Fixpoint Fire_calls `{SDK} (h : OTELLogHook) (entries : list logrus.Entry)
  : M (list (option error)) :=
  match entries with
  | [] => ret []
  | entry :: rest =>
      let* err := Fire h entry in
      let* errs := Fire_calls h rest in
      ret (err :: errs)
  end.

(** The records handed to [Emit], in order. *)
Definition emitted_records (w : World) : list otellog.Record :=
  omap (λ e, match e with EvEmit _ _ r => Some r | _ => None end) w.

(** The teardown steps of a trace, in order. *)
Definition is_teardown (e : Event) : bool :=
  match e with
  | EvLoggerProviderShutdown _ _
  | EvMeterProviderShutdown _ _
  | EvShutdownFunc _ _ => true
  | _ => false
  end.

(** ** Inputs the examples run on *)

(** An outside world in which every call succeeds. *)
Definition quietSDK : SDK :=
  {| sdk_resource_New := λ _ opts _,
       (Some {| sdk.ResourceAttributes := [] |}, None);
     sdk_otlplog_New := λ _ _ _ _, None;
     sdk_otlpmetric_New := λ _ _ _ _, None;
     sdk_Logger_Emit := λ _ _ _ _, Exported;
     sdk_LoggerProvider_Shutdown := λ _ _ _, Returned None;
     sdk_MeterProvider_Shutdown := λ _ _ _, Returned None;
     sdk_LogExporter_Shutdown := λ _ _ _, Returned None;
     sdk_MetricExporter_Shutdown := λ _ _ _, Returned None |}.

(** An outside world in which every constructor and every teardown call
    fails, the exporter drops every record, and a provider that was already
    shut down says so. *)
Definition failingSDK : SDK :=
  {| sdk_resource_New := λ _ _ _, (None, Some (errorString "no host"));
     sdk_otlplog_New := λ _ _ _ _, Some (errorString "dial failed");
     sdk_otlpmetric_New := λ _ _ _ _, Some (errorString "dial failed");
     sdk_Logger_Emit := λ _ _ _ _, ExportFailed (errorString "export timeout");
     sdk_LoggerProvider_Shutdown := λ _ _ _,
       Returned (Some (errorString "context canceled"));
     sdk_MeterProvider_Shutdown := λ _ _ _,
       Returned (Some (errorString "reader is shutdown"));
     sdk_LogExporter_Shutdown := λ _ _ _,
       Returned (Some (errorString "closed"));
     sdk_MetricExporter_Shutdown := λ _ _ _,
       Returned (Some (errorString "closed")) |}.

(** An outside world in which only the log exporter cannot be built. *)
Definition logsDownSDK : SDK :=
  {| sdk_resource_New := λ _ opts _,
       (Some {| sdk.ResourceAttributes := [] |}, None);
     sdk_otlplog_New := λ _ _ _ _, Some (errorString "dial failed");
     sdk_otlpmetric_New := λ _ _ _ _, None;
     sdk_Logger_Emit := λ _ _ _ _, Exported;
     sdk_LoggerProvider_Shutdown := λ _ _ _, Returned None;
     sdk_MeterProvider_Shutdown := λ _ _ _, Returned None;
     sdk_LogExporter_Shutdown := λ _ _ _, Returned None;
     sdk_MetricExporter_Shutdown := λ _ _ _, Returned None |}.

Definition emptyState : State := {| activeManager := None; trace := [] |}.

(** The hook of the panic-recovery tests: no provider, no logger. *)
Definition nilLoggerHook : OTELLogHook :=
  {| loggerProvider := None; otelLogger := None; context := ∅ |}.

Definition testProvider : sdk.LoggerProvider :=
  sdk.NewLoggerProvider
    [sdk.WithProcessor (sdk.NewSimpleProcessor (sdk.OtherLogExporter 0))].

Definition testHook : OTELLogHook :=
  {| loggerProvider := Some testProvider;
     otelLogger := Some (sdk.ProviderLogger testProvider "drone-runner-aws");
     context := {[ "accountId" := "acc123" ]} |}.

Definition testEntry (level : Z) : logrus.Entry :=
  {| logrus.EntryLogger := Some {| logrus.ReportCaller := false |};
     logrus.Data := {[ "taskId" := AString "task-1" ]};
     logrus.Time := 1700000000;
     logrus.Level := level;
     logrus.Caller := None;
     logrus.Message := "test log message";
     logrus.EntryContext := None |}.

Definition testConfig : Config :=
  {| Enabled := true; Endpoint := "localhost:4317"; Protocol := "grpc";
     Insecure := true; ExportLogs := true; ExportMetrics := true;
     ServiceName := "drone-runner-aws"; ServiceVersion := "1.0.0";
     Environment := "production"; Headers := ∅ |}.

Definition disabledConfig : Config :=
  {| Enabled := false; Endpoint := "localhost:4317"; Protocol := "grpc";
     Insecure := true; ExportLogs := true; ExportMetrics := true;
     ServiceName := "drone-runner-aws"; ServiceVersion := "1.0.0";
     Environment := "production"; Headers := ∅ |}.

Definition noEndpointConfig : Config :=
  {| Enabled := true; Endpoint := ""; Protocol := "grpc";
     Insecure := true; ExportLogs := true; ExportMetrics := true;
     ServiceName := "drone-runner-aws"; ServiceVersion := "1.0.0";
     Environment := "production"; Headers := ∅ |}.

Definition testBridge : MetricsBridge :=
  {| meterProvider :=
       Some (sdk.NewMeterProvider [sdk.WithReader sdk.NewManualReader]) |}.

(** A manager with a hook, a bridge, and two callbacks of which the second
    fails. *)
Definition testManager : manager :=
  {| logHook := Some testHook;
     metricsBridge := Some testBridge;
     shutdownFuncs :=
       [ (λ _ _, Returned None);
         (λ _ _, Returned (Some (errorString "exporter connection reset"))) ];
     config := testConfig |}.

Definition activeState : State :=
  {| activeManager := Some testManager; trace := [] |}.

(** The dummy components of the accessor tests, [&OTELLogHook{}] and
    [&MetricsBridge{}]: no provider behind either. The label map plays no
    part in teardown. *)
Definition dummyHook : OTELLogHook :=
  {| loggerProvider := None; otelLogger := None; context := ∅ |}.

Definition dummyBridge : MetricsBridge := {| meterProvider := None |}.

(** A manager holding the dummy hook and bridge and one callback that
    succeeds. *)
Definition dummyManager : manager :=
  {| logHook := Some dummyHook;
     metricsBridge := Some dummyBridge;
     shutdownFuncs := [ (λ _ _, Returned None) ];
     config := testConfig |}.

Definition dummyState : State :=
  {| activeManager := Some dummyManager; trace := [] |}.

(** The records [Emit] receives when [testHook] fires an entry of the given
    level in a quiet world. *)
Definition test_fired (level : Z) : list otellog.Record :=
  emitted_records
    (trace (@Fire quietSDK testHook (testEntry level) emptyState).2).

(** ** init_test.go: the helpers the tests read error texts with *)

(** [searchSubstring]: the same loop as [containsSubstring]. *)
Definition searchSubstring (s substr : string) : bool :=
  let last :=
    Z.of_nat (String.length s) - Z.of_nat (String.length substr) in
  if last <? 0 then false
  else containsSubstring_loop (Z.to_nat last + 1) 0 s substr.

(** [contains]. *)
Definition contains (s substr : string) : bool :=
  (String.length substr <=? String.length s)%nat && searchSubstring s substr.

(** [containsError]. *)
Definition containsError (errStr substr : string) : bool :=
  (0 <? String.length errStr)%nat && contains errStr substr.

(** ** More observers of a trace *)

(** The events of the package mutex [mu]. *)
Definition is_mutex (e : Event) : bool :=
  match e with
  | EvMuLock | EvMuUnlock => true
  | _ => false
  end.

(** The label maps of a run of [UpdateContext] calls laid over one another,
    the latest on top. *)
Definition overlay (calls : list (gmap string string))
    (labels : gmap string string) : gmap string string :=
  foldl (λ acc ctxMap, ctxMap ∪ acc) labels calls.

(** The events of a trace that belong to the package mutex, and those that
    are teardown calls, in order. *)
Definition mutex_events (w : World) : World :=
  omap (λ e, if is_mutex e then Some e else None) w.

Definition teardown_events (w : World) : World :=
  omap (λ e, if is_teardown e then Some e else None) w.

(** What an operation added to the trace. *)
Definition new_events (before after : State) : World :=
  drop (length (trace before)) (trace after).

(** The trace at which [Shutdown] begins the teardown of the manager in the
    slot, and the trace at which an enabled [Start] does. *)
Definition Shutdown_teardown_trace (st : State) : World :=
  trace st
  ++ [EvMuLock;
      EvLogrus logrus.InfoLevel "Shutting down OTEL integration" None].

Definition Start_teardown_trace (st : State) : World :=
  trace st
  ++ [EvMuLock;
      EvLogrus logrus.InfoLevel
        "Shutting down previous OTEL manager before reinitializing" None;
      EvLogrus logrus.InfoLevel "Shutting down OTEL integration" None].

(** * Theorems *)

Example mapLogrusLevel_99 : mapLogrusLevel 99 = otellog.SeverityInfo.
Proof. reflexivity. Qed.

(** ** The severity mapper *)

Lemma mapLogrusLevel_default (level : Z) :
  level ∉ logrus.AllLevels → mapLogrusLevel level = otellog.SeverityInfo.
Proof.
  intros Hout. unfold mapLogrusLevel.
  repeat match goal with
         | |- context [?a =? ?b] =>
             destruct (Z.eqb_spec a b) as [-> | _];
             [exfalso; apply Hout; unfold logrus.AllLevels;
              repeat first [apply list_elem_of_here | apply list_elem_of_further] |]
         end.
  reflexivity.
Qed.

(** C9. The severity mapper is total. On the seven logrus levels it takes
    seven distinct values, strictly increasing as the level gets more severe
    (logrus numbers its levels from the most severe, panic = 0, to the least,
    trace = 6); panic goes to [SeverityFatal4], the largest severity of the
    fatal class and different from the severity of fatal; every other level
    value goes to [SeverityInfo]. *)
Theorem mapLogrusLevel_total_ordered_default :
  map mapLogrusLevel
    [logrus.TraceLevel; logrus.DebugLevel; logrus.InfoLevel;
     logrus.WarnLevel; logrus.ErrorLevel; logrus.FatalLevel;
     logrus.PanicLevel]
  = [otellog.SeverityTrace; otellog.SeverityDebug; otellog.SeverityInfo;
     otellog.SeverityWarn; otellog.SeverityError; otellog.SeverityFatal;
     otellog.SeverityFatal4]
  ∧ NoDup (map mapLogrusLevel logrus.AllLevels)
  ∧ (∀ l1 l2, l1 ∈ logrus.AllLevels → l2 ∈ logrus.AllLevels →
       l1 < l2 → mapLogrusLevel l2 < mapLogrusLevel l1)
  ∧ otellog.isFatalClass (mapLogrusLevel logrus.PanicLevel) = true
  ∧ otellog.isFatalClass (mapLogrusLevel logrus.FatalLevel) = true
  ∧ (∀ s, otellog.isFatalClass s = true →
       s ≤ mapLogrusLevel logrus.PanicLevel)
  ∧ mapLogrusLevel logrus.PanicLevel ≠ mapLogrusLevel logrus.FatalLevel
  ∧ (∀ level, level ∉ logrus.AllLevels →
       mapLogrusLevel level = otellog.SeverityInfo).
Proof.
  split; [reflexivity |].
  split.
  { apply NoDup_ListNoDup. vm_compute.
    repeat (constructor; [cbn; intuition discriminate |]). constructor. }
  split.
  { intros l1 l2 H1 H2 Hlt.
    unfold logrus.AllLevels in H1, H2.
    repeat (apply elem_of_cons in H1 as [-> | H1]);
      try (by apply elem_of_nil in H1);
      repeat (apply elem_of_cons in H2 as [-> | H2]);
      try (by apply elem_of_nil in H2);
      vm_compute in Hlt; try discriminate; reflexivity. }
  split; [reflexivity |].
  split; [reflexivity |].
  split.
  { intros s Hs. unfold otellog.isFatalClass in Hs.
    apply andb_true_iff in Hs as [_ Hs]. apply Z.leb_le in Hs.
    exact Hs. }
  split; [discriminate |].
  apply mapLogrusLevel_default.
Qed.

(** ** UpdateContext *)

(** The assignment loop of [UpdateContext], over any enumeration [l] that
    lists each key once: the label map becomes the entries of [l] laid over
    the old map. *)
Lemma upsert_loop_context (l : list (string * string)) (h : OTELLogHook) :
  NoDup l.*1 →
  context
    (foldl (λ h kv,
              {| loggerProvider := loggerProvider h;
                 otelLogger := otelLogger h;
                 context := <[kv.1 := kv.2]> (context h) |}) h l)
  = (list_to_map l : gmap string string) ∪ context h.
Proof.
  revert h. induction l as [| [k v] l IH]; intros h Hnd; simpl.
  - by rewrite (left_id_L ∅ (∪)).
  - apply NoDup_cons in Hnd as [Hk Hnd].
    rewrite IH by done. simpl.
    apply map_eq. intros i.
    rewrite !lookup_union.
    destruct (decide (k = i)) as [-> | Hne].
    + rewrite !lookup_insert_eq.
      rewrite (not_elem_of_list_to_map_1 l i Hk).
      by destruct (context h !! i).
    + by rewrite !lookup_insert_ne.
Qed.

Lemma upsert_loop_handles (l : list (string * string)) (h : OTELLogHook) :
  let h' := foldl (λ h kv,
              {| loggerProvider := loggerProvider h;
                 otelLogger := otelLogger h;
                 context := <[kv.1 := kv.2]> (context h) |}) h l in
  loggerProvider h' = loggerProvider h ∧ otelLogger h' = otelLogger h.
Proof.
  revert h. induction l as [| kv l IH]; intros h; simpl; [done |].
  destruct (IH {| loggerProvider := loggerProvider h;
                  otelLogger := otelLogger h;
                  context := <[kv.1 := kv.2]> (context h) |}) as [-> ->].
  done.
Qed.

Lemma UpdateContext_context (ctxMap : gmap string string) (h : OTELLogHook)
    (st : State) :
  context (UpdateContext ctxMap h st).1 = ctxMap ∪ context h.
Proof.
  unfold UpdateContext, bind, event, ret, go_range. simpl.
  rewrite upsert_loop_context by apply NoDup_fst_map_to_list.
  by rewrite list_to_map_to_list.
Qed.

Lemma UpdateContext_calls_dom (calls : list (gmap string string))
    (h : OTELLogHook) (st : State) :
  dom (context h) ⊆ dom (context (UpdateContext_calls calls h st).1).
Proof.
  revert h st. induction calls as [| ctxMap calls IH]; intros h st.
  - done.
  - cbn [UpdateContext_calls]. unfold bind.
    destruct (UpdateContext ctxMap h st) as [h1 st1] eqn:E.
    etrans; [| apply IH].
    replace h1 with (UpdateContext ctxMap h st).1 by (by rewrite E).
    rewrite UpdateContext_context, dom_union. set_solver.
Qed.

(** C8. [UpdateContext] merge-upserts: a key of the argument ends with the
    argument's value, any other key keeps what it had, no key is removed,
    and the key set of the label map only grows over any sequence of
    calls. The call takes and releases the write lock and touches nothing
    else of the hook. *)
Theorem UpdateContext_merge_upsert (ctxMap : gmap string string)
    (h : OTELLogHook) (st : State) :
  let h' := (UpdateContext ctxMap h st).1 in
  let st' := (UpdateContext ctxMap h st).2 in
  (∀ k v, ctxMap !! k = Some v → context h' !! k = Some v)
  ∧ (∀ k, ctxMap !! k = None → context h' !! k = context h !! k)
  ∧ dom (context h) ⊆ dom (context h')
  ∧ (∀ calls st0,
       dom (context h) ⊆ dom (context (UpdateContext_calls calls h st0).1))
  ∧ loggerProvider h' = loggerProvider h
  ∧ otelLogger h' = otelLogger h
  ∧ trace st' = trace st ++ [EvLock; EvUnlock]
  ∧ activeManager st' = activeManager st.
Proof.
  intros h' st'. subst h' st'.
  split_and!.
  - intros k v Hk. rewrite UpdateContext_context.
    by apply lookup_union_Some_l.
  - intros k Hk. rewrite UpdateContext_context.
    by apply lookup_union_r.
  - rewrite UpdateContext_context, dom_union. set_solver.
  - intros calls st0. apply UpdateContext_calls_dom.
  - unfold UpdateContext, bind, event, ret. simpl.
    apply (upsert_loop_handles (go_range ctxMap) h).
  - unfold UpdateContext, bind, event, ret. simpl.
    apply (upsert_loop_handles (go_range ctxMap) h).
  - unfold UpdateContext, bind, event, ret. simpl.
    by rewrite <- app_assoc.
  - done.
Qed.

(** ** Fire *)

Lemma foldl_snoc_fmap {A B} (f : A → B) (l : list A) (acc : list B) :
  foldl (λ acc x, acc ++ [f x]) acc l = acc ++ (f <$> l).
Proof.
  revert acc. induction l as [| x l IH]; intros acc; simpl.
  - by rewrite app_nil_r.
  - rewrite IH. by rewrite <- app_assoc.
Qed.

(** [entry.HasCaller()] guards the dereference of [entry.Caller]. *)
Lemma HasCaller_Caller (entry : logrus.Entry) :
  logrus.HasCaller entry = true → is_Some (logrus.Caller entry).
Proof.
  unfold logrus.HasCaller. destruct (logrus.EntryLogger entry); [| done].
  intros [_ Hc]%andb_true_iff. by apply bool_decide_eq_true in Hc.
Qed.

Section FireFacts.
Context `{SDK}.

(** The body of [Fire] takes and releases the read lock, then hands the
    record of the entry to [Emit]; nothing before [Emit] can fault. *)
Lemma Fire_body_emit (h : OTELLogHook) (entry : logrus.Entry) (st : State) :
  Fire_body h entry st
  = let r := Logger_Emit (otelLogger h) (resolved_context entry)
               (entry_record h entry)
               {| activeManager := activeManager st;
                  trace := trace st ++ [EvRLock; EvRUnlock] |} in
    (match r.1 with
     | Returned _ => Returned None
     | Panicked p => Panicked p
     end, r.2).
Proof.
  unfold Fire_body, bindP, returns, bind, event, ret. simpl.
  rewrite !foldl_snoc_fmap. simpl.
  rewrite <- (app_assoc (trace st) [EvRLock] [EvRUnlock]). simpl.
  assert (Hrec :
    ∀ attrs0,
      attrs0 = (field_attrs entry ++ label_attrs h) ++ caller_attrs entry →
      otellog.AddAttributes
        match logrus.Data entry !! logrus.ErrorKey with
        | Some (AError err) =>
            attrs0 ++ [otellog.String "exception.message" (Error err)]
        | _ => attrs0
        end
        (otellog.SetSeverityText (logrus.Level_String (logrus.Level entry))
           (otellog.SetSeverity (mapLogrusLevel (logrus.Level entry))
              (otellog.SetBody (otellog.StringValue (logrus.Message entry))
                 (otellog.SetTimestamp (logrus.Time entry)
                    otellog.zeroRecord))))
      = entry_record h entry).
  { intros attrs0 ->. unfold entry_record, otellog.AddAttributes. simpl.
    f_equal. unfold exception_attrs.
    destruct (logrus.Data entry !! logrus.ErrorKey) as [[]|];
      rewrite <- ?app_assoc, ?app_nil_r; reflexivity. }
  unfold caller_attrs in Hrec.
  destruct (logrus.HasCaller entry) eqn:Hhas.
  - destruct (HasCaller_Caller entry Hhas) as [caller Hc].
    rewrite Hc in *. simpl.
    rewrite Hrec by reflexivity.
    unfold resolved_context, default.
    destruct (Logger_Emit _ _ _ _) as [[u | p] st']; reflexivity.
  - simpl. rewrite Hrec by (by rewrite app_nil_r).
    unfold resolved_context, default.
    destruct (Logger_Emit _ _ _ _) as [[u | p] st']; reflexivity.
Qed.

End FireFacts.

(** *** The marker of a recovered fault *)

Lemma string_length_app (s t : string) :
  String.length (s +:+ t) = (String.length s + String.length t)%nat.
Proof. induction s as [| a s IH]; simpl; [done | by rewrite IH]. Qed.

Lemma substring_prefix_app (p t : string) :
  String.substring 0 (String.length p) (p +:+ t) = p.
Proof.
  induction p as [| a p IH]; simpl.
  - by destruct t.
  - by rewrite IH.
Qed.

(** A text that starts with [p] passes the tests' [containsSubstring]
    check for [p]. *)
Lemma containsSubstring_prefix (p t : string) :
  containsSubstring (p +:+ t) p = true.
Proof.
  unfold containsSubstring. rewrite string_length_app.
  destruct (Z.ltb_spec
    (Z.of_nat (String.length p + String.length t)
     - Z.of_nat (String.length p)) 0) as [Hlt | Hge]; [lia |].
  replace (Z.to_nat _ + 1)%nat
    with (S (Z.to_nat (Z.of_nat (String.length p + String.length t)
                       - Z.of_nat (String.length p)))) by lia.
  simpl. rewrite substring_prefix_app. by rewrite String.eqb_refl.
Qed.

Lemma panic_marker (p : PanicValue) :
  containsSubstring ("otel log hook panic: " +:+ PanicValue_Sprint_v p)
    "otel log hook panic" = true.
Proof.
  change ("otel log hook panic: " +:+ PanicValue_Sprint_v p)
    with ("otel log hook panic" +:+ (": " +:+ PanicValue_Sprint_v p)).
  apply containsSubstring_prefix.
Qed.

Section FireTheorems.
Context `{SDK}.

(** What [Fire] returns, by how its body ends. *)
Lemma Fire_by_outcome (h : OTELLogHook) (entry : logrus.Entry) (st : State) :
  (Fire h entry st).1
  = match (Fire_body h entry st).1 with
    | Returned e => e
    | Panicked p =>
        Some (errorString
                ("otel log hook panic: " +:+ PanicValue_Sprint_v p))
    end
  ∧ (Fire h entry st).2 = (Fire_body h entry st).2.
Proof.
  unfold Fire, bind, ret.
  destruct (Fire_body h entry st) as [[e | p] st']; simpl; done.
Qed.

(** The body returns nil whenever it returns. *)
Lemma Fire_body_returns_nil (h : OTELLogHook) (entry : logrus.Entry)
    (st : State) (e : option error) :
  (Fire_body h entry st).1 = Returned e → e = None.
Proof.
  rewrite Fire_body_emit. simpl.
  destruct (Logger_Emit _ _ _ _).1; congruence.
Qed.

(** With a nil logger the body faults at [Emit], after releasing the read
    lock. *)
Lemma Fire_body_nil_logger (h : OTELLogHook) (entry : logrus.Entry)
    (st : State) :
  otelLogger h = None →
  Fire_body h entry st
  = (Panicked nilDereference,
     {| activeManager := activeManager st;
        trace := trace st ++ [EvRLock; EvRUnlock] |}).
Proof. intros Hnil. rewrite Fire_body_emit, Hnil. reflexivity. Qed.

Lemma Fire_calls_nil_logger (h : OTELLogHook) (entries : list logrus.Entry)
    (st : State) :
  otelLogger h = None →
  (Fire_calls h entries st).1
  = replicate (length entries)
      (Some (errorString
               ("otel log hook panic: "
                +:+ PanicValue_Sprint_v nilDereference))).
Proof.
  intros Hnil. revert st.
  induction entries as [| entry rest IH]; intros st; [done |].
  cbn [Fire_calls]. unfold bind at 1.
  destruct (Fire h entry st) as [err st1] eqn:E.
  unfold bind, ret. specialize (IH st1).
  destruct (Fire_calls h rest st1) as [errs st2]. simpl in *.
  f_equal; [| done].
  pose proof (Fire_by_outcome h entry st) as [Hr _].
  rewrite E, Fire_body_nil_logger in Hr by done. exact Hr.
Qed.

(** C1. [Fire] returns to its caller however its body ends. When the body
    faults with any value, [Fire] returns a non-nil error made of the
    marker and the text of the fault, and the tests' check for the marker
    passes on it; when the body returns, [Fire] returns what the body
    returned and the fault path is not taken. A hook without a logger
    faults on every entry, so any run of calls on it, one hundred or
    more, yields that error at each call. *)
Theorem Fire_contains_every_fault (h : OTELLogHook) (entry : logrus.Entry)
    (st : State) :
  (∀ p, (Fire_body h entry st).1 = Panicked p →
     ∃ e, (Fire h entry st).1 = Some e
          ∧ Error e = "otel log hook panic: " +:+ PanicValue_Sprint_v p
          ∧ containsSubstring (Error e) "otel log hook panic" = true)
  ∧ (∀ r, (Fire_body h entry st).1 = Returned r →
       (Fire h entry st).1 = r ∧ r = None)
  ∧ (otelLogger h = None →
       (∃ e, (Fire h entry st).1 = Some e
             ∧ containsSubstring (Error e) "otel log hook panic" = true)
       ∧ ∀ entries st0,
           length (Fire_calls h entries st0).1 = length entries
           ∧ Forall (λ r, ∃ e, r = Some e
                          ∧ containsSubstring (Error e)
                              "otel log hook panic" = true)
               (Fire_calls h entries st0).1).
Proof.
  pose proof (Fire_by_outcome h entry st) as [Hr _].
  split_and!.
  - intros p Hp. rewrite Hp in Hr. eexists. split; [exact Hr |].
    split; [reflexivity | apply panic_marker].
  - intros r Hret. rewrite Hret in Hr. split; [exact Hr |].
    by apply (Fire_body_returns_nil h entry st).
  - intros Hnil. split.
    + rewrite Fire_body_nil_logger in Hr by done. eexists.
      split; [exact Hr | apply panic_marker].
    + intros entries st0. rewrite Fire_calls_nil_logger by done.
      split; [by rewrite length_replicate |].
      apply Forall_replicate. eexists. split; [reflexivity |].
      apply panic_marker.
Qed.

End FireTheorems.

Section FireRecord.
Context `{SDK}.

(** [Fire] returns nil exactly when the hook has a logger whose [Emit]
    does not fault. *)
Lemma Fire_nil_iff (h : OTELLogHook) (entry : logrus.Entry) (st : State) :
  (Fire h entry st).1 = None
  ↔ ∃ lg, otelLogger h = Some lg
          ∧ ∀ p, sdk_Logger_Emit lg (resolved_context entry)
                   (entry_record h entry)
                   (trace st ++ [EvRLock; EvRUnlock]) ≠ EmitPanicked p.
Proof.
  destruct (Fire_by_outcome h entry st) as [-> _].
  rewrite Fire_body_emit. simpl.
  destruct (otelLogger h) as [lg |]; simpl.
  - unfold bind, ask, event, ret. simpl.
    destruct (sdk_Logger_Emit lg _ _ _) as [| e | p] eqn:E; simpl.
    + split; [| done]. intros _. exists lg. split; [done |].
      intros p. congruence.
    + split; [| done]. intros _. exists lg. split; [done |].
      intros p. congruence.
    + split; [done |]. intros (lg' & [= <-] & Hno).
      by destruct (Hno p).
  - split; [done |]. by intros (lg & ? & _).
Qed.

(** The trace of a [Fire] on a hook that has a logger. *)
Lemma Fire_trace (h : OTELLogHook) (entry : logrus.Entry) (st : State)
    (lg : sdk.Logger) :
  otelLogger h = Some lg →
  trace (Fire h entry st).2
  = trace st ++ [EvRLock; EvRUnlock;
                 EvEmit lg (resolved_context entry) (entry_record h entry)]
  ∧ activeManager (Fire h entry st).2 = activeManager st.
Proof.
  intros Hlg. destruct (Fire_by_outcome h entry st) as [_ ->].
  rewrite Fire_body_emit, Hlg. simpl.
  unfold bind, ask, event, ret. simpl.
  destruct (sdk_Logger_Emit lg _ _ _); simpl;
    by rewrite <- app_assoc.
Qed.

(** C10. [Fire] returns a non-nil error only when its body faulted, and
    then it is the recovered fault; whenever the body returns, [Fire]
    returns nil. [Emit] has no error result: a record the exporter failed
    to ship still leaves [Fire] returning nil, with the record handed
    over. *)
Theorem Fire_error_only_from_fault (h : OTELLogHook) (entry : logrus.Entry)
    (st : State) :
  (∀ e, (Fire h entry st).1 = Some e →
     ∃ p, (Fire_body h entry st).1 = Panicked p
          ∧ e = errorString
                  ("otel log hook panic: " +:+ PanicValue_Sprint_v p))
  ∧ (∀ r, (Fire_body h entry st).1 = Returned r →
       (Fire h entry st).1 = None)
  ∧ (∀ lg e,
       otelLogger h = Some lg →
       sdk_Logger_Emit lg (resolved_context entry) (entry_record h entry)
         (trace st ++ [EvRLock; EvRUnlock]) = ExportFailed e →
       (Fire h entry st).1 = None
       ∧ emitted_records (trace (Fire h entry st).2)
         = emitted_records (trace st) ++ [entry_record h entry]).
Proof.
  pose proof (Fire_by_outcome h entry st) as [Hr _].
  split_and!.
  - intros e He. rewrite He in Hr.
    destruct (Fire_body h entry st).1 as [r | p] eqn:Hb.
    + apply (Fire_body_returns_nil h entry st) in Hb. congruence.
    + exists p. split; [done | congruence].
  - intros r Hret. rewrite Hret in Hr.
    apply (Fire_body_returns_nil h entry st) in Hret. congruence.
  - intros lg e Hlg Hfail. split.
    + apply Fire_nil_iff. exists lg. split; [done |]. congruence.
    + destruct (Fire_trace h entry st lg Hlg) as [-> _].
      unfold emitted_records. rewrite omap_app. done.
Qed.

End FireRecord.

(** *** The record of an entry *)

Lemma field_attrs_complete (entry : logrus.Entry) :
  length (field_attrs entry) = size (logrus.Data entry)
  ∧ ∀ k v, logrus.Data entry !! k = Some v →
      otellog.String k (Sprint_v v) ∈ field_attrs entry.
Proof.
  unfold field_attrs, go_range. split.
  - by rewrite length_fmap, length_map_to_list.
  - intros k v Hk. apply list_elem_of_fmap. exists (k, v).
    split; [done |]. by apply elem_of_map_to_list.
Qed.

Lemma label_attrs_snapshot (h : OTELLogHook) :
  length (label_attrs h) = size (context h)
  ∧ ∀ k v, context h !! k = Some v ↔ otellog.String k v ∈ label_attrs h.
Proof.
  unfold label_attrs, go_range. split.
  - by rewrite length_fmap, length_map_to_list.
  - intros k v. rewrite list_elem_of_fmap. split.
    + intros Hk. exists (k, v). split; [done |].
      by apply elem_of_map_to_list.
    + intros ([k' v'] & Heq & Hin). simpl in Heq.
      injection Heq as -> ->. by apply elem_of_map_to_list.
Qed.

Lemma caller_attrs_cases (entry : logrus.Entry) :
  (logrus.HasCaller entry = true →
   ∃ caller, logrus.Caller entry = Some caller
     ∧ caller_attrs entry
       = [otellog.String "code.filepath" (logrus.File caller);
          otellog.String "code.function" (logrus.Function caller);
          otellog.Int "code.lineno" (logrus.Line caller)])
  ∧ (logrus.HasCaller entry = false → caller_attrs entry = []).
Proof.
  unfold caller_attrs. split; intros Hhas.
  - destruct (HasCaller_Caller entry Hhas) as [caller Hc].
    exists caller. by rewrite Hhas, Hc.
  - by rewrite Hhas.
Qed.

Lemma exception_attrs_cases (entry : logrus.Entry) :
  (∀ err, logrus.Data entry !! logrus.ErrorKey = Some (AError err) →
     exception_attrs entry
     = [otellog.String "exception.message" (Error err)])
  ∧ ((∀ err, logrus.Data entry !! logrus.ErrorKey ≠ Some (AError err)) →
     exception_attrs entry = []).
Proof.
  unfold exception_attrs. split.
  - by intros err ->.
  - intros Hno.
    destruct (logrus.Data entry !! logrus.ErrorKey) as [[| | | | err] |];
      try done.
    by destruct (Hno err).
Qed.

(** C7 as stated fails on the severity text. The severity text of the
    record [Fire] emits is not a function of the severity the mapper
    returns: the info level and the undefined level 99
    both map to [SeverityInfo], and their records carry the texts "info"
    and "unknown". *)
Lemma Fire_severity_text_not_from_mapper :
  (∃ r1 r2,
     test_fired logrus.InfoLevel = [r1] ∧ test_fired 99 = [r2]
     ∧ otellog.Severity r1 = mapLogrusLevel logrus.InfoLevel
     ∧ otellog.Severity r2 = mapLogrusLevel 99
     ∧ otellog.Severity r1 = otellog.Severity r2
     ∧ otellog.SeverityText r1 = "info"
     ∧ otellog.SeverityText r2 = "unknown")
  ∧ ¬ ∃ text_of : Z → string,
        ∀ level,
          Forall (λ r, otellog.SeverityText r
                       = text_of (mapLogrusLevel level))
            (test_fired level).
Proof.
  split.
  - do 2 eexists. split; [vm_compute; reflexivity |].
    split; [vm_compute; reflexivity |]. by vm_compute.
  - intros [text_of Hall].
    pose proof (Hall logrus.InfoLevel) as H4.
    pose proof (Hall 99) as H99.
    vm_compute in H4, H99.
    apply Forall_cons in H4 as [H4 _]. apply Forall_cons in H99 as [H99 _].
    rewrite <- H4 in H99. discriminate.
Qed.

Section FireBuildsRecord.
Context `{SDK}.

(** C7, as the code has it. On the non-faulting path [Fire] takes and
    releases the read lock and emits, with the entry's context (the
    background context when the entry has none), the record whose
    timestamp is the entry's time, whose body is the message, whose
    severity is the mapper's and whose severity text is the logrus name
    of the level; its attributes are, in this order, every structured
    field coerced to text, the whole label map, the caller's file,
    function and line when the entry has a caller, and one exception
    message when the field under the error key is an error. *)
Theorem Fire_builds_record (h : OTELLogHook) (entry : logrus.Entry)
    (st : State) :
  (Fire h entry st).1 = None →
  ∃ lg,
    otelLogger h = Some lg
    ∧ trace (Fire h entry st).2
      = trace st ++ [EvRLock; EvRUnlock;
                     EvEmit lg (resolved_context entry)
                       (entry_record h entry)]
    ∧ resolved_context entry
      = match logrus.EntryContext entry with
        | Some c => c
        | None => Background
        end
    ∧ otellog.Timestamp (entry_record h entry) = logrus.Time entry
    ∧ otellog.Body (entry_record h entry)
      = otellog.StringValue (logrus.Message entry)
    ∧ otellog.Severity (entry_record h entry)
      = mapLogrusLevel (logrus.Level entry)
    ∧ otellog.SeverityText (entry_record h entry)
      = logrus.Level_String (logrus.Level entry)
    ∧ otellog.Attributes (entry_record h entry)
      = field_attrs entry ++ label_attrs h ++ caller_attrs entry
        ++ exception_attrs entry
    ∧ (length (field_attrs entry) = size (logrus.Data entry)
       ∧ ∀ k v, logrus.Data entry !! k = Some v →
           otellog.String k (Sprint_v v) ∈ field_attrs entry)
    ∧ (length (label_attrs h) = size (context h)
       ∧ ∀ k v, context h !! k = Some v
                ↔ otellog.String k v ∈ label_attrs h)
    ∧ (logrus.HasCaller entry = true →
       ∃ caller, logrus.Caller entry = Some caller
         ∧ caller_attrs entry
           = [otellog.String "code.filepath" (logrus.File caller);
              otellog.String "code.function" (logrus.Function caller);
              otellog.Int "code.lineno" (logrus.Line caller)])
    ∧ (logrus.HasCaller entry = false → caller_attrs entry = [])
    ∧ (∀ err, logrus.Data entry !! logrus.ErrorKey = Some (AError err) →
         exception_attrs entry
         = [otellog.String "exception.message" (Error err)])
    ∧ ((∀ err, logrus.Data entry !! logrus.ErrorKey ≠ Some (AError err)) →
       exception_attrs entry = []).
Proof.
  intros Hnil. apply Fire_nil_iff in Hnil as (lg & Hlg & _).
  exists lg.
  destruct (Fire_trace h entry st lg Hlg) as [Htr _].
  destruct (caller_attrs_cases entry) as [Hc1 Hc2].
  destruct (exception_attrs_cases entry) as [He1 He2].
  split_and!;
    first [ done
          | apply field_attrs_complete
          | apply label_attrs_snapshot
          | unfold resolved_context;
            by destruct (logrus.EntryContext entry) ].
Qed.

End FireBuildsRecord.

(** The hook and entry of [TestOTELLogHookFire], in a quiet world. *)
Lemma Fire_builds_record_witness :
  (@Fire quietSDK testHook (testEntry logrus.InfoLevel) emptyState).1 = None
  ∧ ∃ lg, otelLogger testHook = Some lg
      ∧ trace (@Fire quietSDK testHook (testEntry logrus.InfoLevel)
                 emptyState).2
        = [EvRLock; EvRUnlock;
           EvEmit lg Background
             (entry_record testHook (testEntry logrus.InfoLevel))].
Proof.
  split; [vm_compute; reflexivity |].
  destruct (@Fire_builds_record quietSDK testHook
              (testEntry logrus.InfoLevel) emptyState)
    as (lg & Hlg & Htr & _); [vm_compute; reflexivity |].
  exists lg. split; [exact Hlg | exact Htr].
Defined.

(** ** Searching a text, as the tests do *)

Lemma string_app_assoc (a b c : string) : (a +:+ b) +:+ c = a +:+ b +:+ c.
Proof.
  induction a as [| x a IH]; [reflexivity |].
  change (String x ((a +:+ b) +:+ c) = String x (a +:+ b +:+ c)).
  by rewrite IH.
Qed.

Lemma substring_at_app (pre sub post : string) :
  String.substring (String.length pre) (String.length sub)
    (pre +:+ sub +:+ post) = sub.
Proof.
  induction pre as [| c pre IH].
  - exact (substring_prefix_app sub post).
  - exact IH.
Qed.

(** A slice equal to [sub] that fits in [s] splits [s] around [sub]. *)
Lemma substring_split (j : nat) (s sub : string) :
  (j + String.length sub ≤ String.length s)%nat →
  String.substring j (String.length sub) s = sub →
  ∃ pre post, s = pre +:+ sub +:+ post ∧ String.length pre = j.
Proof.
  revert s. induction j as [| j IHj]; intros s Hfit Hsub.
  - exists "". revert s Hfit Hsub.
    induction sub as [| c sub IHsub]; intros s Hfit Hsub.
    + exists s. done.
    + destruct s as [| c' s]; simpl in *; [lia |].
      injection Hsub as -> Hsub.
      destruct (IHsub s) as (post & Hs & _); [lia | done |].
      exists post. simpl in Hs. by rewrite Hs at 1.
  - destruct s as [| c s]; simpl in Hfit; [lia |].
    assert (Hsub' : String.substring j (String.length sub) s = sub).
    { by destruct sub. }
    destruct (IHj s) as (pre & post & -> & Hlen); [lia | done |].
    exists (String c pre), post. simpl. by rewrite Hlen.
Qed.

Lemma containsSubstring_loop_hit (n i j : nat) (s sub : string) :
  (i ≤ j < i + n)%nat →
  String.substring j (String.length sub) s = sub →
  containsSubstring_loop n i s sub = true.
Proof.
  revert i. induction n as [| n IH]; intros i Hj Hsub; [lia |].
  simpl.
  destruct (String.eqb_spec (String.substring i (String.length sub) s) sub)
    as [| Hne]; [done |].
  apply IH; [| done].
  destruct (decide (i = j)) as [-> | ?]; [done | lia].
Qed.

Lemma containsSubstring_loop_true (n i : nat) (s sub : string) :
  containsSubstring_loop n i s sub = true →
  ∃ j, (i ≤ j < i + n)%nat
       ∧ String.substring j (String.length sub) s = sub.
Proof.
  revert i. induction n as [| n IH]; intros i Hloop; [done |].
  simpl in Hloop.
  destruct (String.eqb_spec (String.substring i (String.length sub) s) sub)
    as [Heq | Hne].
  - exists i. split; [lia | done].
  - destruct (IH (S i) Hloop) as (j & Hj & Hsub).
    exists j. split; [lia | done].
Qed.

(** The loop shared by the two helpers finds exactly the substrings. *)
Lemma substring_search_correct (s sub : string) :
  (let last := Z.of_nat (String.length s) - Z.of_nat (String.length sub) in
   if last <? 0 then false
   else containsSubstring_loop (Z.to_nat last + 1) 0 s sub) = true
  ↔ ∃ pre post, s = pre +:+ sub +:+ post.
Proof.
  cbv zeta. split.
  - destruct (Z.ltb_spec
      (Z.of_nat (String.length s) - Z.of_nat (String.length sub)) 0)
      as [| Hfit]; [done |].
    intros (j & Hj & Hsub)%containsSubstring_loop_true.
    destruct (substring_split j s sub) as (pre & post & Hs & _);
      [lia | done |].
    by exists pre, post.
  - intros (pre & post & ->).
    rewrite !string_length_app.
    destruct (Z.ltb_spec
      (Z.of_nat (String.length pre + (String.length sub + String.length post))
       - Z.of_nat (String.length sub)) 0) as [| _]; [lia |].
    apply (containsSubstring_loop_hit _ 0 (String.length pre)); [lia |].
    apply substring_at_app.
Qed.

Lemma contains_containsSubstring (s substr : string) :
  contains s substr = containsSubstring s substr.
Proof.
  unfold contains, searchSubstring, containsSubstring.
  destruct (Nat.leb_spec (String.length substr) (String.length s))
    as [| Hlong]; [done |].
  destruct (Z.ltb_spec
    (Z.of_nat (String.length s) - Z.of_nat (String.length substr)) 0);
    [done | lia].
Qed.

Lemma containsError_occurs (s substr : string) :
  containsError s substr = true
  ↔ s ≠ "" ∧ ∃ pre post, s = pre +:+ substr +:+ post.
Proof.
  unfold containsError. rewrite contains_containsSubstring.
  rewrite andb_true_iff, Nat.ltb_lt.
  rewrite (substring_search_correct s substr : containsSubstring _ _ = _ ↔ _).
  split; intros [Hne Hocc]; (split; [| done]).
  - intros ->. simpl in Hne. lia.
  - destruct s; [done | simpl; lia].
Qed.

Lemma string_app_nil_r (a : string) : a +:+ "" = a.
Proof.
  induction a as [| x a IH]; [reflexivity |].
  change (String x (a +:+ "") = String x a). by rewrite IH.
Qed.

(** Occurrence is transitive: what occurs in an occurrence occurs in the
    whole. *)
Lemma occurs_trans (s mid text : string) :
  (∃ pre post, s = pre +:+ mid +:+ post) →
  (∃ pre post, mid = pre +:+ text +:+ post) →
  ∃ pre post, s = pre +:+ text +:+ post.
Proof.
  intros (p1 & q1 & ->) (p2 & q2 & ->).
  exists (p1 +:+ p2), (q2 +:+ q1).
  by rewrite !string_app_assoc.
Qed.

Lemma join_space_occurs (l : list string) (m : string) :
  m ∈ l → ∃ pre post, join_space l = pre +:+ m +:+ post.
Proof.
  induction l as [| s rest IH]; intros Hin; [by apply elem_of_nil in Hin |].
  apply elem_of_cons in Hin as [-> | Hin].
  - destruct rest as [| s' rest].
    + exists "", "". cbn [join_space]. by rewrite string_app_nil_r.
    + exists "", (" " +:+ join_space (s' :: rest)). reflexivity.
  - destruct rest as [| s' rest]; [by apply elem_of_nil in Hin |].
    destruct (IH Hin) as (pre & post & Hj).
    exists (s +:+ " " +:+ pre), post.
    change (join_space (s :: s' :: rest))
      with (s +:+ " " +:+ join_space (s' :: rest)).
    rewrite Hj. by rewrite !string_app_assoc.
Qed.

(** The text of every collected error occurs in the joined error. *)
Lemma joined_error_occurs (errs : list error) (e joined : error) :
  e ∈ errs →
  joined_error errs = Some joined →
  Error joined ≠ ""
  ∧ ∃ pre post, Error joined = pre +:+ Error e +:+ post.
Proof.
  intros Hin Hj. destruct errs as [| e0 errs]; [done |].
  injection Hj as <-. split; [done |].
  destruct (join_space_occurs (Error <$> e0 :: errs) (Error e))
    as (pre & post & Hocc).
  { apply list_elem_of_fmap. by exists e. }
  exists ("OTEL shutdown errors: [" +:+ pre), (post +:+ "]").
  cbn [Error]. unfold Sprint_errs. rewrite Hocc.
  change ("OTEL shutdown errors: " +:+ "[" +:+ (pre +:+ Error e +:+ post) +:+ "]")
    with ("OTEL shutdown errors: [" +:+ (pre +:+ Error e +:+ post) +:+ "]").
  by rewrite !string_app_assoc.
Qed.

(** ** Ordered teardown *)

(** The callbacks are called once each, by index. *)
Lemma callback_steps_events (ctx : Context) (fns : list shutdownFunc)
    (i : nat) :
  (callback_steps ctx fns i).*1
  = (λ j, EvShutdownFunc j ctx) <$> seq i (length fns).
Proof.
  revert i. induction fns as [| fn rest IH]; intros i; simpl; [done |].
  by rewrite IH.
Qed.

Lemma no_fault_cons (e : Event) (answer : World → outcome (option error))
    (rest : list TeardownStep) (w : World) :
  no_fault ((e, answer) :: rest) w
  ↔ (∃ err, answer w = Returned err) ∧ no_fault rest (w ++ [e]).
Proof.
  unfold no_fault. split.
  - intros Hall. split.
    + specialize (Hall 0%nat e answer eq_refl). simpl in Hall.
      by rewrite app_nil_r in Hall.
    + intros i e' answer' Hi. specialize (Hall (S i) e' answer' Hi).
      simpl in Hall. by rewrite <- app_assoc.
  - intros [H0 Hrest] i e' answer' Hi. destruct i as [| i]; simpl in *.
    + injection Hi as <- <-. by rewrite app_nil_r.
    + specialize (Hrest i e' answer' Hi). by rewrite <- app_assoc in Hrest.
Qed.

(** However the run ends, the calls made are the first calls of the steps,
    in order. *)
Lemma run_steps_prefix (steps : list TeardownStep) (w : World) :
  ∃ n, (run_steps steps w).2 = w ++ take n steps.*1.
Proof.
  revert w. induction steps as [| [e answer] rest IH]; intros w.
  - exists 0%nat. simpl. by rewrite app_nil_r.
  - simpl. destruct (answer w) as [err | p].
    + destruct (IH (w ++ [e])) as [n Hn]. exists (S n). simpl.
      rewrite Hn. by rewrite <- app_assoc.
    + by exists 1%nat.
Qed.

(** When no step faults, every step is called and the failures are
    collected. *)
Lemma run_steps_no_fault (steps : list TeardownStep) (w : World) :
  no_fault steps w →
  run_steps steps w = (Returned (failures steps w), w ++ steps.*1).
Proof.
  revert w. induction steps as [| [e answer] rest IH]; intros w Hnf.
  - simpl. by rewrite app_nil_r.
  - apply no_fault_cons in Hnf as [[err Herr] Hrest].
    simpl. rewrite Herr, (IH _ Hrest). simpl.
    rewrite <- app_assoc. by destruct err.
Qed.

(** The run returns only when no step faults. *)
Lemma run_steps_returned (steps : list TeardownStep) (w : World)
    (errs : list error) :
  (run_steps steps w).1 = Returned errs → no_fault steps w.
Proof.
  revert w errs. induction steps as [| [e answer] rest IH]; intros w errs Hr.
  - by intros i e answer Hi.
  - simpl in Hr. apply no_fault_cons.
    destruct (answer w) as [err | p]; [| done]. simpl in Hr.
    split; [by eexists |].
    destruct (run_steps rest (w ++ [e])).1 as [errs' | p] eqn:E; [| done].
    by apply (IH _ errs').
Qed.

(** A run that faults stops at the first step that faults: the steps before
    it returned, its call is the last one made. *)
Lemma run_steps_fault (steps : list TeardownStep) (w : World)
    (p : PanicValue) :
  (run_steps steps w).1 = Panicked p →
  ∃ i e answer,
    steps !! i = Some (e, answer)
    ∧ answer (w ++ take i steps.*1) = Panicked p
    ∧ no_fault (take i steps) w
    ∧ (run_steps steps w).2 = w ++ take (S i) steps.*1.
Proof.
  revert w. induction steps as [| [e answer] rest IH]; intros w Hr; [done |].
  simpl in Hr. destruct (answer w) as [err | p'] eqn:Ha.
  - simpl in Hr.
    destruct (run_steps rest (w ++ [e])).1 as [errs | p'] eqn:E; [done |].
    injection Hr as ->.
    destruct (IH _ E) as (i & e' & answer' & Hi & Hp & Hnf & Htr).
    exists (S i), e', answer'. split; [done |].
    split; [simpl; by rewrite <- app_assoc in Hp |].
    split.
    + simpl. apply no_fault_cons. split; [by eexists | done].
    + simpl. rewrite Ha. simpl. rewrite Htr. by rewrite <- app_assoc.
  - simpl in Hr. injection Hr as ->.
    exists 0%nat, e, answer. split; [done |].
    split; [simpl; by rewrite app_nil_r |].
    split; [by intros i e' answer' Hi |].
    simpl. by rewrite Ha.
Qed.

(** The failures are the errors the steps returned. *)
Lemma failures_elem (steps : list TeardownStep) (w : World) (err : error) :
  err ∈ failures steps w
  ↔ ∃ i e answer,
      steps !! i = Some (e, answer)
      ∧ answer (w ++ take i steps.*1) = Returned (Some err).
Proof.
  revert w. induction steps as [| [e answer] rest IH]; intros w.
  - simpl. split; [by intros ?%elem_of_nil | by intros (i & ? & ? & ? & _)].
  - cbn [failures]. rewrite elem_of_app, IH. split.
    + intros [Hin | (i & e' & answer' & Hi & Ha)].
      * exists 0%nat, e, answer. split; [done |]. simpl.
        rewrite app_nil_r.
        destruct (answer w) as [[err' |] | p];
          try (by apply elem_of_nil in Hin).
        apply list_elem_of_singleton in Hin. by subst.
      * exists (S i), e', answer'. split; [done |]. simpl.
        by rewrite <- app_assoc in Ha.
    + intros (i & e' & answer' & Hi & Ha). destruct i as [| i]; simpl in *.
      * injection Hi as <- <-. rewrite app_nil_r in Ha. rewrite Ha.
        left. apply list_elem_of_here.
      * right. exists i, e', answer'. split; [done |].
        by rewrite <- app_assoc.
Qed.


Lemma joined_error_None (errs : list error) :
  joined_error errs = None ↔ errs = [].
Proof. by destruct errs. Qed.

(** The text of the joined error: its heading, then the collected
    errors. *)
Lemma joined_error_text (errs : list error) (joined : error) :
  joined_error errs = Some joined →
  Error joined = "OTEL shutdown errors: " +:+ Sprint_errs errs
  ∧ containsError (Error joined) "OTEL shutdown errors" = true.
Proof.
  intros Hj. destruct errs as [| e0 errs]; [done |].
  injection Hj as <-. split; [done |]. cbn [Error].
  apply containsError_occurs. split; [done |].
  exists "", (": " +:+ Sprint_errs (e0 :: errs)). reflexivity.
Qed.

(** Every text of a collected error is found in the joined error by the
    tests' [containsError]. *)
Lemma joined_error_contains (errs : list error) (err : error) :
  err ∈ errs →
  ∃ joined,
    joined_error errs = Some joined
    ∧ ∀ text, containsSubstring (Error err) text = true →
        containsError (Error joined) text = true.
Proof.
  intros Hin.
  destruct (joined_error errs) as [joined |] eqn:Hj.
  - exists joined. split; [done |]. intros text Htext.
    destruct (joined_error_occurs _ err joined Hin Hj) as [Hne Hocc].
    apply containsError_occurs. split; [done |].
    apply (occurs_trans _ (Error err)); [done |].
    by apply substring_search_correct.
  - apply joined_error_None in Hj. subst. by apply elem_of_nil in Hin.
Qed.

Section Teardown.
Context `{SDK}.

Lemma shutdown_loop_steps (ctx : Context) (fns : list shutdownFunc) (i : nat)
    (errs : list error) (st : State) :
  shutdown_loop ctx fns i errs st
  = (match (run_steps (callback_steps ctx fns i) (trace st)).1 with
     | Returned collected => Returned (errs ++ collected)
     | Panicked p => Panicked p
     end,
     {| activeManager := activeManager st;
        trace := (run_steps (callback_steps ctx fns i) (trace st)).2 |}).
Proof.
  revert i errs st. induction fns as [| fn rest IH]; intros i errs st.
  - simpl. unfold ret. rewrite app_nil_r. by destruct st.
  - cbn [shutdown_loop callback_steps run_steps].
    unfold bindP, bind, ask, event, ret. cbn [trace activeManager].
    destruct (fn ctx (trace st)) as [[e |] | p]; cbn [wrapped fmap option_fmap
      option_map fst snd]; [| | done].
    + rewrite IH. cbn [trace activeManager fst snd].
      destruct (run_steps _ _).1; [| done].
      cbn [option_list]. by rewrite <- app_assoc.
    + rewrite IH. cbn [trace activeManager fst snd].
      by destruct (run_steps _ _).1.
Qed.

(** [shutdown] logs one line and runs the teardown steps. *)
Lemma manager_shutdown_steps (m : manager) (ctx : Context) (st : State) :
  let w0 := trace st
            ++ [EvLogrus logrus.InfoLevel "Shutting down OTEL integration"
                  None] in
  manager_shutdown (Some m) ctx st
  = (match (run_steps (teardown_steps m ctx) w0).1 with
     | Returned errs => Returned (joined_error errs)
     | Panicked p => Panicked p
     end,
     {| activeManager := activeManager st;
        trace := (run_steps (teardown_steps m ctx) w0).2 |}).
Proof.
  intros w0. subst w0.
  unfold manager_shutdown, teardown_steps, Close, LoggerProvider_Shutdown,
    MetricsBridge_Shutdown, logrus_log, bindP, bind, ask, event, ret.
  destruct (logHook m) as [hook |], (metricsBridge m) as [bridge |];
    cbn [app run_steps trace activeManager];
    repeat match goal with
           | |- context [LoggerProvider_Shutdown_answer ?p ?c ?w] =>
               destruct (LoggerProvider_Shutdown_answer p c w) as [[? |] | ?];
               cbn [wrapped fmap option_fmap option_map fst snd trace
                    activeManager]
           | |- context [MeterProvider_Shutdown_answer ?p ?c ?w] =>
               destruct (MeterProvider_Shutdown_answer p c w) as [[? |] | ?];
               cbn [wrapped fmap option_fmap option_map fst snd trace
                    activeManager]
           end;
    try reflexivity;
    rewrite shutdown_loop_steps; cbn [trace activeManager fst snd];
    destruct (run_steps _ _) as [[errs | p] w]; cbn [fst snd option_list app];
    try reflexivity;
    by destruct errs.
Qed.

(** A teardown in which no step faults returns, having made every call. *)
Lemma manager_shutdown_no_fault (m : manager) (ctx : Context) (st : State) :
  let w0 := trace st
            ++ [EvLogrus logrus.InfoLevel "Shutting down OTEL integration"
                  None] in
  no_fault (teardown_steps m ctx) w0 →
  manager_shutdown (Some m) ctx st
  = (Returned (joined_error (failures (teardown_steps m ctx) w0)),
     {| activeManager := activeManager st;
        trace := w0 ++ (teardown_steps m ctx).*1 |}).
Proof.
  intros w0 Hnf. rewrite manager_shutdown_steps. fold w0.
  by rewrite (run_steps_no_fault _ _ Hnf).
Qed.

(** The calls of a teardown, by the parts of the manager. *)
Lemma teardown_steps_events (m : manager) (ctx : Context) :
  (teardown_steps m ctx).*1
  = match logHook m with
    | Some hook =>
        [EvLoggerProviderShutdown (loggerProvider hook)
           (WithTimeout Background logHookCloseTimeout)]
    | None => []
    end
    ++ match metricsBridge m with
       | Some bridge => [EvMeterProviderShutdown (meterProvider bridge) ctx]
       | None => []
       end
    ++ ((λ j, EvShutdownFunc j ctx) <$> seq 0 (length (shutdownFuncs m))).
Proof.
  unfold teardown_steps. rewrite !fmap_app, callback_steps_events.
  by destruct (logHook m), (metricsBridge m).
Qed.

End Teardown.

(** The constructors over a nil provider: the hook constructor faults at
    [provider.Logger]; the bridge constructor stores the nil pointer, and
    the bridge faults when it is shut down, as a hook without provider does
    when it is closed. *)
Example constructors_nil_provider :
  NewOTELLogHookWithProvider None = Panicked nilDereference
  ∧ NewOTELLogHookWithProvider (Some testProvider)
    = Returned {| loggerProvider := loggerProvider testHook;
                  otelLogger := otelLogger testHook;
                  context := ∅ |}
  ∧ GetMeterProvider (NewMetricsBridgeWithProvider None) = None
  ∧ (@MetricsBridge_Shutdown quietSDK (NewMetricsBridgeWithProvider None)
       Background emptyState).1 = Panicked nilDereference
  ∧ (@Close quietSDK dummyHook emptyState).1 = Panicked nilDereference.
Proof. by vm_compute. Qed.




(** ** The manager state machine *)

Section Lifecycle.
Context `{SDK}.

(** [Shutdown], run: the mutex is released however the teardown ends; the
    slot is cleared only when the teardown returns. *)
Lemma Shutdown_run (ctx : Context) (st : State) :
  Shutdown ctx st
  = match activeManager st with
    | None =>
        (Returned None,
         {| activeManager := None;
            trace := trace st ++ [EvMuLock; EvMuUnlock] |})
    | Some m =>
        let r := run_steps (teardown_steps m ctx)
                   (trace st
                    ++ [EvMuLock;
                        EvLogrus logrus.InfoLevel
                          "Shutting down OTEL integration" None]) in
        match r.1 with
        | Returned errs =>
            (Returned (joined_error errs),
             {| activeManager := None; trace := r.2 ++ [EvMuUnlock] |})
        | Panicked p =>
            (Panicked p,
             {| activeManager := Some m; trace := r.2 ++ [EvMuUnlock] |})
        end
    end.
Proof.
  unfold Shutdown, deferred, bindP, bind, event, getActiveManager,
    setActiveManager, ret.
  cbn [activeManager trace].
  destruct (activeManager st) as [m |] eqn:Hm.
  - rewrite manager_shutdown_steps. cbn [activeManager trace fst snd].
    rewrite <- (app_assoc (trace st) [EvMuLock]). cbn [app].
    by destruct (run_steps _ _) as [[errs | p] w].
  - cbn [activeManager trace]. by rewrite <- app_assoc.
Qed.


(** C5. With [Enabled] false, whatever the other fields, [Start] returns
    nil, logs that the integration is disabled, and does nothing else: the
    slot holds what it held and no component of a previous manager is
    called. *)
Theorem Start_disabled_noop (ctx : Context) (config : Config)
    (version : string) (logger : option logrus.Logger) (st : State) :
  Enabled config = false →
  Start ctx config version logger st
  = (Returned None,
     {| activeManager := activeManager st;
        trace := trace st
                 ++ [EvLogrus logrus.InfoLevel "OTEL integration is disabled"
                       None] |}).
Proof.
  intros Hoff. unfold Start. rewrite Hoff. reflexivity.
Qed.

(** C6. With [Enabled] true and an empty endpoint, [Start] returns the
    configuration error and leaves the state as it was: no call is made, no
    mutex taken, and the slot holds what it held. *)
Theorem Start_no_endpoint_error (ctx : Context) (config : Config)
    (version : string) (logger : option logrus.Logger) (st : State) :
  Enabled config = true →
  Endpoint config = "" →
  Start ctx config version logger st
  = (Returned
       (Some (errorString
                "OTEL is enabled but DRONE_OTEL_ENDPOINT is not set")),
     st).
Proof.
  intros Hon Hep. unfold Start. rewrite Hon, Hep. reflexivity.
Qed.

End Lifecycle.



(** A disabled configuration over an active manager, in a world where every
    call would fail. *)
Lemma Start_disabled_noop_witness :
  Enabled disabledConfig = false
  ∧ @Start failingSDK Background disabledConfig "1.0.0" None activeState
    = (Returned None,
       {| activeManager := Some testManager;
          trace := [EvLogrus logrus.InfoLevel "OTEL integration is disabled"
                      None] |}).
Proof.
  split; [reflexivity |].
  apply (@Start_disabled_noop failingSDK Background disabledConfig "1.0.0"
           None activeState).
  reflexivity.
Defined.

(** An enabled configuration without endpoint, over an active manager. *)
Lemma Start_no_endpoint_error_witness :
  Enabled noEndpointConfig = true
  ∧ Endpoint noEndpointConfig = ""
  ∧ @Start quietSDK Background noEndpointConfig "1.0.0" None activeState
    = (Returned
         (Some (errorString
                  "OTEL is enabled but DRONE_OTEL_ENDPOINT is not set")),
       activeState).
Proof.
  split; [reflexivity |]. split; [reflexivity |].
  apply (@Start_no_endpoint_error quietSDK Background noEndpointConfig
           "1.0.0" None activeState); reflexivity.
Defined.

(** ** Start on an enabled configuration *)

Section Constructors.
Context `{SDK}.

Lemma createLogExporter_eq (ctx : Context) (config : Config) (st : State) :
  createLogExporter ctx config st
  = (match sdk_otlplog_New (transport_of config) ctx (exporter_options config)
             (trace st) with
     | Some e =>
         Err (Errorf_w
                match transport_of config with
                | sdk.HTTP => "failed to create OTLP HTTP log exporter: "
                | sdk.GRPC => "failed to create OTLP gRPC log exporter: "
                end e)
     | None =>
         Ok (sdk.OtlpLogExporter (transport_of config)
               (exporter_options config),
             sdk_LogExporter_Shutdown
               (sdk.OtlpLogExporter (transport_of config)
                  (exporter_options config)))
     end,
     {| activeManager := activeManager st;
        trace := trace st
                 ++ [EvLogExporterNew (transport_of config) ctx
                       (exporter_options config)] |}).
Proof.
  unfold createLogExporter, transport_of, exporter_options, bind, ask, event,
    ret.
  destruct (String.eqb (Protocol config) protocolHTTP), (Insecure config),
    (0 <? size (Headers config))%nat; simpl;
    match goal with
    | |- context [sdk_otlplog_New ?t ?c ?o ?w] =>
        destruct (sdk_otlplog_New t c o w)
    end; reflexivity.
Qed.

Lemma createMetricReader_eq (ctx : Context) (config : Config) (st : State) :
  createMetricReader ctx config st
  = (match sdk_otlpmetric_New (transport_of config) ctx
             (exporter_options config) (trace st) with
     | Some e =>
         Err (Errorf_w
                match transport_of config with
                | sdk.HTTP => "failed to create OTLP HTTP metric exporter: "
                | sdk.GRPC => "failed to create OTLP gRPC metric exporter: "
                end e)
     | None =>
         Ok (sdk.NewPeriodicReader
               (sdk.OtlpMetricExporter (transport_of config)
                  (exporter_options config))
               DefaultMetricsExportInterval metricExportTimeout,
             sdk_MetricExporter_Shutdown
               (sdk.OtlpMetricExporter (transport_of config)
                  (exporter_options config)))
     end,
     {| activeManager := activeManager st;
        trace := trace st
                 ++ [EvMetricExporterNew (transport_of config) ctx
                       (exporter_options config)] |}).
Proof.
  unfold createMetricReader, transport_of, exporter_options, bind, ask, event,
    ret.
  destruct (String.eqb (Protocol config) protocolHTTP), (Insecure config),
    (0 <? size (Headers config))%nat; simpl;
    match goal with
    | |- context [sdk_otlpmetric_New ?t ?c ?o ?w] =>
        destruct (sdk_otlpmetric_New t c o w)
    end; reflexivity.
Qed.

Lemma NewResource_eq (ctx : Context) (config : Config) (version : string)
    (st : State) :
  NewResource ctx config version st
  = (sdk_resource_New ctx (resource_options config version) (trace st),
     {| activeManager := activeManager st;
        trace := trace st
                 ++ [EvResourceNew ctx (resource_options config version)] |}).
Proof.
  unfold NewResource, resource_options, bind, ask, event, ret.
  by destruct (String.eqb version ""),
    (String.eqb (Environment config) "").
Qed.

End Constructors.

Section StartEnabled.
Context `{SDK}.





End StartEnabled.



(** The log exporter cannot be built: [Start] returns nil, the manager has
    no hook and has its bridge. *)
Example Start_logs_down_keeps_metrics :
  let r := @Start logsDownSDK Background testConfig "1.0.0" None emptyState in
  r.1 = Returned None
  ∧ logHook <$> activeManager r.2 = Some None
  ∧ is_Some (activeManager r.2 ≫= metricsBridge).
Proof. vm_compute. split; [done |]. split; [done |]. by eexists. Qed.

(** Every call fails, over an active manager: the old manager is torn down
    in order, its joined error is logged, [Start] returns nil and installs a
    manager without hook and bridge. *)
Example Start_over_failing_previous :
  let r := @Start failingSDK Background testConfig "1.0.0" None activeState in
  r.1 = Returned None
  ∧ filter (λ e, is_teardown e = true) (trace r.2)
    = [EvLoggerProviderShutdown (loggerProvider testHook)
         (WithTimeout Background logHookCloseTimeout);
       EvMeterProviderShutdown (meterProvider testBridge) Background;
       EvShutdownFunc 0 Background;
       EvShutdownFunc 1 Background]
  ∧ EvLogrus logrus.WarnLevel "Failed to shutdown previous OTEL manager"
      (Some (errorString
         ("OTEL shutdown errors: [log hook shutdown: context canceled "
          +:+ "metrics bridge shutdown: reader is shutdown "
          +:+ "exporter shutdown: exporter connection reset]")))
    ∈ trace r.2
  ∧ logHook <$> activeManager r.2 = Some None
  ∧ metricsBridge <$> activeManager r.2 = Some None.
Proof.
  vm_compute. split; [done |]. split; [done |]. split; [| done].
  repeat first [apply list_elem_of_here | apply list_elem_of_further].
Qed.

(** One hundred calls on the hook of the panic-recovery tests. *)
Example Fire_hundred_times_nil_logger :
  (@Fire_calls quietSDK nilLoggerHook
     (replicate 100 (testEntry logrus.InfoLevel)) emptyState).1
  = replicate 100
      (Some (errorString
         ("otel log hook panic: runtime error: "
          +:+ "invalid memory address or nil pointer dereference"))).
Proof. vm_compute. reflexivity. Qed.

(** The label map after the calls of [TestOTELLogHookUpdateContext] and
    [TestOTELLogHookUpdateContextOverwrite]. *)
Example UpdateContext_tests :
  context (UpdateContext_calls
             [ {[ "accountId" := "abc123"; "service" := "runner" ]};
               {[ "version" := "1.0" ]};
               {[ "service" := "runner-2" ]} ]
             nilLoggerHook emptyState).1
  = {[ "accountId" := "abc123"; "service" := "runner-2";
       "version" := "1.0" ]}.
Proof. vm_compute. reflexivity. Qed.


(** * Further properties of the package *)

(** ** The substring helpers of the tests *)

(** X1. [containsSubstring s substr] is true exactly when [substr] occurs
    in [s]; in particular the empty string occurs in every string and a
    string longer than [s] never does. *)
Theorem containsSubstring_correct (s substr : string) :
  (containsSubstring s substr = true
   ↔ ∃ pre post, s = pre +:+ substr +:+ post)
  ∧ containsSubstring s "" = true
  ∧ ((String.length s < String.length substr)%nat →
     containsSubstring s substr = false).
Proof.
  split_and!.
  - apply substring_search_correct.
  - apply (substring_search_correct s ""). by exists "", s.
  - intros Hlong. unfold containsSubstring.
    destruct (Z.ltb_spec
      (Z.of_nat (String.length s) - Z.of_nat (String.length substr)) 0);
      [done | lia].
Qed.

(** X2. [contains] agrees with [containsSubstring]: its length guard never
    changes the answer. [containsError] adds one case: on an empty error
    text it is false even for the empty substring. *)
Theorem contains_containsError_correct (s substr : string) :
  contains s substr = containsSubstring s substr
  ∧ (containsError s substr = true
     ↔ s ≠ "" ∧ ∃ pre post, s = pre +:+ substr +:+ post)
  ∧ containsError "" "" = false
  ∧ contains "" "" = true.
Proof.
  split_and!; [| | done | done].
  - apply contains_containsSubstring.
  - apply containsError_occurs.
Qed.

(** ** The text of the joined shutdown error *)

Lemma wrapped_error_occurs (prefix text : string) (cause : error) :
  containsSubstring (Error cause) text = true →
  containsSubstring (Error (Errorf_w prefix cause)) text = true.
Proof.
  intros Hocc. apply substring_search_correct.
  apply (occurs_trans _ (Error cause)); [| by apply substring_search_correct].
  exists prefix, "". cbn [Error Errorf_w]. by rewrite string_app_nil_r.
Qed.

(** The error a step returned is in the joined error, with all its text. *)
Lemma step_failure_joined (steps : list TeardownStep) (w : World) (i : nat)
    (e : Event) (answer : World → outcome (option error)) (err : error) :
  steps !! i = Some (e, answer) →
  answer (w ++ take i steps.*1) = Returned (Some err) →
  ∃ joined,
    joined_error (failures steps w) = Some joined
    ∧ ∀ text, containsSubstring (Error err) text = true →
        containsError (Error joined) text = true.
Proof.
  intros Hi Ha. apply joined_error_contains.
  apply failures_elem. by exists i, e, answer.
Qed.

(** The step of the callback registered at position [i]. *)
Lemma callback_steps_lookup (ctx : Context) (fns : list shutdownFunc)
    (j i : nat) (fn : shutdownFunc) :
  fns !! i = Some fn →
  callback_steps ctx fns j !! i
  = Some (EvShutdownFunc (j + i) ctx,
          λ w, wrapped "exporter shutdown: " (fn ctx w)).
Proof.
  revert j i. induction fns as [| fn' rest IH]; intros j i Hi; [done |].
  destruct i as [| i].
  - injection Hi as ->. by rewrite Nat.add_0_r.
  - rewrite Nat.add_succ_r. exact (IH (S j) i Hi).
Qed.

(** X3. When no teardown call faults, the error [shutdown] returns names
    every part that failed and carries the whole text of what that part
    answered: a failing hook puts "log hook shutdown" and the provider's
    error in it, a failing bridge "metrics bridge shutdown" and the
    provider's error, a failing callback "exporter shutdown" and the
    callback's error, each found by the tests' [containsError]; whenever an
    error is returned its heading is found too. *)
Theorem manager_shutdown_error_text `{SDK} (m : manager) (ctx : Context)
    (st : State) :
  let w0 := trace st
            ++ [EvLogrus logrus.InfoLevel "Shutting down OTEL integration"
                  None] in
  let c := WithTimeout Background logHookCloseTimeout in
  let hook_calls :=
    match logHook m with
    | Some hook => [EvLoggerProviderShutdown (loggerProvider hook) c]
    | None => []
    end in
  let bridge_calls :=
    match metricsBridge m with
    | Some bridge => [EvMeterProviderShutdown (meterProvider bridge) ctx]
    | None => []
    end in
  let callback_calls :=
    (λ j, EvShutdownFunc j ctx) <$> seq 0 (length (shutdownFuncs m)) in
  no_fault (teardown_steps m ctx) w0 →
  ∃ res,
    (manager_shutdown (Some m) ctx st).1 = Returned res
    ∧ (∀ hook provider cause,
         logHook m = Some hook →
         loggerProvider hook = Some provider →
         sdk_LoggerProvider_Shutdown provider c w0 = Returned (Some cause) →
         ∃ joined,
           res = Some joined
           ∧ containsError (Error joined) "log hook shutdown" = true
           ∧ ∀ text, containsSubstring (Error cause) text = true →
               containsError (Error joined) text = true)
    ∧ (∀ bridge provider cause,
         metricsBridge m = Some bridge →
         meterProvider bridge = Some provider →
         sdk_MeterProvider_Shutdown provider ctx (w0 ++ hook_calls)
         = Returned (Some cause) →
         ∃ joined,
           res = Some joined
           ∧ containsError (Error joined) "metrics bridge shutdown" = true
           ∧ ∀ text, containsSubstring (Error cause) text = true →
               containsError (Error joined) text = true)
    ∧ (∀ i fn cause,
         shutdownFuncs m !! i = Some fn →
         fn ctx (w0 ++ hook_calls ++ bridge_calls ++ take i callback_calls)
         = Returned (Some cause) →
         ∃ joined,
           res = Some joined
           ∧ containsError (Error joined) "exporter shutdown" = true
           ∧ ∀ text, containsSubstring (Error cause) text = true →
               containsError (Error joined) text = true)
    ∧ (∀ joined, res = Some joined →
         containsError (Error joined) "OTEL shutdown errors" = true).
Proof.
  intros w0 c hook_calls bridge_calls callback_calls Hnf.
  exists (joined_error (failures (teardown_steps m ctx) w0)).
  rewrite manager_shutdown_no_fault by done. fold w0.
  split; [done |].
  assert (Hstep :
    ∀ i e prefix name (ans : World → outcome (option error)) cause,
      teardown_steps m ctx !! i = Some (e, λ w, wrapped prefix (ans w)) →
      ans (w0 ++ take i (teardown_steps m ctx).*1) = Returned (Some cause) →
      prefix = name +:+ ": " →
      ∃ joined,
        joined_error (failures (teardown_steps m ctx) w0) = Some joined
        ∧ containsError (Error joined) name = true
        ∧ ∀ text, containsSubstring (Error cause) text = true →
            containsError (Error joined) text = true).
  { intros i e prefix name ans cause Hi Ha ->.
    destruct (step_failure_joined (teardown_steps m ctx) w0 i e _
                (Errorf_w (name +:+ ": ") cause) Hi)
      as (joined & Hj & Htext).
    { cbn beta. by rewrite Ha. }
    exists joined. split; [done |]. split.
    - apply Htext. cbn [Error Errorf_w]. rewrite string_app_assoc.
      apply containsSubstring_prefix.
    - intros text Hin. apply Htext. by apply wrapped_error_occurs. }
  split_and!.
  - intros hook provider cause Hh Hp Ha.
    apply (Hstep 0%nat (EvLoggerProviderShutdown (loggerProvider hook) c)
             "log hook shutdown: " "log hook shutdown"
             (LoggerProvider_Shutdown_answer (loggerProvider hook) c));
      [| | done].
    + unfold teardown_steps. by rewrite Hh.
    + cbn [take]. rewrite app_nil_r, Hp. exact Ha.
  - intros bridge provider cause Hb Hp Ha.
    apply (Hstep (length hook_calls)
             (EvMeterProviderShutdown (meterProvider bridge) ctx)
             "metrics bridge shutdown: " "metrics bridge shutdown"
             (MeterProvider_Shutdown_answer (meterProvider bridge) ctx));
      [| | done].
    + unfold teardown_steps, hook_calls. rewrite Hb.
      by destruct (logHook m).
    + rewrite teardown_steps_events. fold hook_calls.
      rewrite take_app_length, Hp. exact Ha.
  - intros i fn cause Hi Ha.
    apply (Hstep (length hook_calls + length bridge_calls + i)%nat
             (EvShutdownFunc i ctx)
             "exporter shutdown: " "exporter shutdown" (fn ctx));
      [| | done].
    + unfold teardown_steps, hook_calls, bridge_calls.
      pose proof (callback_steps_lookup ctx (shutdownFuncs m) 0 i fn Hi)
        as Hcb.
      by destruct (logHook m), (metricsBridge m).
    + rewrite teardown_steps_events.
      fold hook_calls bridge_calls callback_calls.
      rewrite <- Nat.add_assoc, take_app_add, take_app_add.
      exact Ha.
  - intros joined. apply joined_error_text.
Qed.

(** A manager whose hook, bridge and second callback fail. *)
Lemma manager_shutdown_error_text_witness :
  no_fault (@teardown_steps failingSDK testManager Background)
    [EvLogrus logrus.InfoLevel "Shutting down OTEL integration" None]
  ∧ ∃ joined,
      (@manager_shutdown failingSDK (Some testManager) Background
         emptyState).1 = Returned (Some joined)
      ∧ containsError (Error joined) "exporter shutdown" = true
      ∧ containsError (Error joined) "connection reset" = true.
Proof.
  assert (Hnf : no_fault (@teardown_steps failingSDK testManager Background)
                  [EvLogrus logrus.InfoLevel "Shutting down OTEL integration"
                     None]).
  { eapply run_steps_returned. vm_compute. reflexivity. }
  split; [exact Hnf |].
  destruct (@manager_shutdown_error_text failingSDK testManager Background
              emptyState Hnf) as (res & Hres & _ & _ & Hcb & _).
  destruct (Hcb 1%nat
              (λ _ _, Returned (Some (errorString "exporter connection reset")))
              (errorString "exporter connection reset") eq_refl eq_refl)
    as (joined & -> & Hname & Htext).
  exists joined. split; [exact Hres |]. split; [exact Hname |].
  apply Htext. vm_compute. reflexivity.
Defined.

(** ** More on Fire and the label map *)

Section FireMore.
Context `{SDK}.

Lemma Fire_calls_trace (h : OTELLogHook) (entries : list logrus.Entry)
    (st : State) (lg : sdk.Logger) :
  otelLogger h = Some lg →
  trace (Fire_calls h entries st).2
  = trace st
    ++ concat ((λ entry,
                  [EvRLock; EvRUnlock;
                   EvEmit lg (resolved_context entry) (entry_record h entry)])
               <$> entries)
  ∧ length (Fire_calls h entries st).1 = length entries.
Proof.
  intros Hlg. revert st.
  induction entries as [| entry rest IH]; intros st.
  - simpl. by rewrite app_nil_r.
  - cbn [Fire_calls]. unfold bind, ret.
    destruct (Fire h entry st) as [err st1] eqn:E.
    destruct (IH st1) as [IHt IHl].
    destruct (Fire_calls h rest st1) as [errs st2].
    cbn [fst snd] in *.
    split; [| simpl; by rewrite IHl].
    rewrite IHt.
    destruct (Fire_trace h entry st lg Hlg) as [Htr _].
    rewrite E in Htr. cbn [snd] in Htr. rewrite Htr.
    rewrite fmap_cons. cbn [concat]. by rewrite <- app_assoc.
Qed.

(** A run of calls that all returned nil was made on a hook with a
    logger. *)
Lemma Fire_calls_nil_logger_present (h : OTELLogHook)
    (entries : list logrus.Entry) (st : State) :
  Forall (λ r, r = None) (Fire_calls h entries st).1 →
  entries = [] ∨ ∃ lg, otelLogger h = Some lg.
Proof.
  destruct entries as [| entry rest]; [by left |].
  intros Hall. right.
  cbn [Fire_calls] in Hall. unfold bind, ret in Hall.
  destruct (Fire h entry st) as [err st1] eqn:E.
  destruct (Fire_calls h rest st1) as [errs st2].
  apply Forall_cons in Hall as [-> _].
  assert (Hnil : (Fire h entry st).1 = None) by (by rewrite E).
  apply Fire_nil_iff in Hnil as (lg & Hlg & _). by exists lg.
Qed.

(** X5. When every call of a run of [Fire] calls returned nil, [Emit] was
    handed one record per entry, the record of that entry, in the order of
    the calls, none dropped and none repeated, and the caller got one
    result per entry. *)
Theorem Fire_calls_one_record_each (h : OTELLogHook)
    (entries : list logrus.Entry) (st : State) :
  Forall (λ r, r = None) (Fire_calls h entries st).1 →
  emitted_records (trace (Fire_calls h entries st).2)
  = emitted_records (trace st) ++ (entry_record h <$> entries)
  ∧ length (Fire_calls h entries st).1 = length entries.
Proof.
  intros Hall.
  destruct (Fire_calls_nil_logger_present h entries st Hall)
    as [-> | [lg Hlg]].
  { simpl. by rewrite app_nil_r. }
  clear Hall.
  destruct (Fire_calls_trace h entries st lg Hlg) as [-> Hlen].
  split; [| done]. clear Hlen.
  unfold emitted_records. rewrite omap_app. f_equal.
  induction entries as [| entry rest IH]; [done |].
  rewrite !fmap_cons. cbn [concat]. rewrite omap_app, IH. done.
Qed.

(** X6. The attributes of the emitted record are not merged: their number
    is the number of fields plus the number of labels plus three for a
    caller plus one for an error. A field under the error key that holds an
    error shows twice, as the field and as the exception message, and a key
    that is both a field and a label shows once for each. *)
Theorem Fire_attributes_not_merged (h : OTELLogHook) (entry : logrus.Entry)
    (st : State) (lg : sdk.Logger) :
  otelLogger h = Some lg →
  ∃ r,
    emitted_records (trace (Fire h entry st).2)
    = emitted_records (trace st) ++ [r]
    ∧ length (otellog.Attributes r)
      = (size (logrus.Data entry) + size (context h)
         + (if logrus.HasCaller entry then 3 else 0)
         + match logrus.Data entry !! logrus.ErrorKey with
           | Some (AError _) => 1
           | _ => 0
           end)%nat
    ∧ (∀ err, logrus.Data entry !! logrus.ErrorKey = Some (AError err) →
         otellog.String "error" (Error err) ∈ otellog.Attributes r
         ∧ otellog.String "exception.message" (Error err)
           ∈ otellog.Attributes r)
    ∧ (∀ k v label,
         logrus.Data entry !! k = Some v →
         context h !! k = Some label →
         otellog.String k (Sprint_v v) ∈ otellog.Attributes r
         ∧ otellog.String k label ∈ otellog.Attributes r).
Proof.
  intros Hlg. exists (entry_record h entry).
  destruct (Fire_trace h entry st lg Hlg) as [-> _].
  destruct (field_attrs_complete entry) as [Hfl Hfin].
  destruct (label_attrs_snapshot h) as [Hll Hlin].
  split_and!.
  - unfold emitted_records. by rewrite omap_app.
  - cbn [otellog.Attributes entry_record].
    rewrite !length_app, Hfl, Hll.
    unfold caller_attrs, exception_attrs.
    destruct (logrus.HasCaller entry) eqn:Hhas.
    + destruct (HasCaller_Caller entry Hhas) as [caller ->].
      destruct (logrus.Data entry !! logrus.ErrorKey) as [[] |];
        simpl; lia.
    + destruct (logrus.Data entry !! logrus.ErrorKey) as [[] |];
        simpl; lia.
  - intros err Herr. cbn [otellog.Attributes entry_record]. split.
    + apply elem_of_app. left. apply (Hfin _ _ Herr).
    + rewrite !elem_of_app. do 3 right.
      unfold exception_attrs. rewrite Herr. apply list_elem_of_here.
  - intros k v label Hk Hl. cbn [otellog.Attributes entry_record]. split.
    + apply elem_of_app. left. by apply Hfin.
    + rewrite !elem_of_app. right. left. by apply Hlin.
Qed.

(** X7. Labels given to [UpdateContext] are on the next record [Fire]
    emits, each with the value given; labels the call did not mention are
    still there; a value the call replaced is no longer among the
    labels. *)
Theorem UpdateContext_then_Fire (ctxMap : gmap string string)
    (h : OTELLogHook) (entry : logrus.Entry) (st : State) (lg : sdk.Logger) :
  otelLogger h = Some lg →
  let u := UpdateContext ctxMap h st in
  let f := Fire u.1 entry u.2 in
  ∃ r,
    trace f.2
    = trace st ++ [EvLock; EvUnlock; EvRLock; EvRUnlock;
                   EvEmit lg (resolved_context entry) r]
    ∧ (∀ k v, ctxMap !! k = Some v →
         otellog.String k v ∈ otellog.Attributes r)
    ∧ (∀ k v, ctxMap !! k = None → context h !! k = Some v →
         otellog.String k v ∈ otellog.Attributes r)
    ∧ (∀ k v old, ctxMap !! k = Some v → old ≠ v →
         otellog.String k old ∉ label_attrs u.1).
Proof.
  intros Hlg u f. subst f.
  assert (Hctx : context u.1 = ctxMap ∪ context h)
    by apply UpdateContext_context.
  assert (Hlg' : otelLogger u.1 = Some lg).
  { unfold u, UpdateContext, bind, event, ret. simpl.
    destruct (upsert_loop_handles (go_range ctxMap) h) as [_ Ho].
    simpl in Ho. by rewrite Ho. }
  assert (Htr : trace u.2 = trace st ++ [EvLock; EvUnlock]).
  { unfold u, UpdateContext, bind, event, ret. simpl.
    by rewrite <- app_assoc. }
  exists (entry_record u.1 entry).
  destruct (Fire_trace u.1 entry u.2 lg Hlg') as [-> _].
  destruct (label_attrs_snapshot u.1) as [_ Hlin].
  split_and!.
  - rewrite Htr. by rewrite <- app_assoc.
  - intros k v Hk. cbn [otellog.Attributes entry_record].
    rewrite !elem_of_app. right. left. apply Hlin. rewrite Hctx.
    by apply lookup_union_Some_l.
  - intros k v Hk Hold. cbn [otellog.Attributes entry_record].
    rewrite !elem_of_app. right. left. apply Hlin. rewrite Hctx.
    by rewrite lookup_union_r.
  - intros k v old Hk Hne Hin. apply Hlin in Hin. rewrite Hctx in Hin.
    rewrite (lookup_union_Some_l _ _ _ _ Hk) in Hin. congruence.
Qed.

End FireMore.

Lemma UpdateContext_calls_context (calls : list (gmap string string))
    (h : OTELLogHook) (st : State) :
  context (UpdateContext_calls calls h st).1 = overlay calls (context h).
Proof.
  revert h st. induction calls as [| ctxMap calls IH]; intros h st; [done |].
  cbn [UpdateContext_calls]. unfold bind.
  destruct (UpdateContext ctxMap h st) as [h1 st1] eqn:E.
  rewrite IH. unfold overlay. cbn [foldl]. f_equal.
  replace h1 with (UpdateContext ctxMap h st).1 by (by rewrite E).
  apply UpdateContext_context.
Qed.

(** X8. A run of [UpdateContext] calls leaves the calls' maps laid over the
    old label map, the latest on top: on a shared key the last call wins,
    calls on disjoint key sets commute, repeating a call changes nothing,
    and a call with an empty (or nil) map changes nothing. *)
Theorem UpdateContext_calls_overlay (calls : list (gmap string string))
    (m1 m2 : gmap string string) (h : OTELLogHook) (st : State) :
  context (UpdateContext_calls calls h st).1 = overlay calls (context h)
  ∧ context (UpdateContext_calls [m1; m2] h st).1 = m2 ∪ (m1 ∪ context h)
  ∧ (∀ k v, m2 !! k = Some v →
       context (UpdateContext_calls [m1; m2] h st).1 !! k = Some v)
  ∧ (m1 ##ₘ m2 →
     context (UpdateContext_calls [m1; m2] h st).1
     = context (UpdateContext_calls [m2; m1] h st).1)
  ∧ context (UpdateContext_calls [m1; m1] h st).1
    = context (UpdateContext_calls [m1] h st).1
  ∧ context (UpdateContext ∅ h st).1 = context h.
Proof.
  rewrite !UpdateContext_calls_context. unfold overlay. cbn [foldl].
  split_and!;
    first [ done
          | intros k v Hk; by apply lookup_union_Some_l
          | intros Hdisj; rewrite !(assoc_L (∪)); f_equal;
            by apply map_union_comm
          | rewrite (assoc_L (∪)); by rewrite (idemp_L (∪))
          | rewrite UpdateContext_context; by rewrite (left_id_L ∅ (∪)) ].
Qed.

(** ** The resource and the exporters of a configuration *)

Section Builders.
Context `{SDK}.

(** X11. [NewResource] makes one [resource.New] call and returns its answer
    as it is. The attributes it asks for start with the service name, even
    an empty one; the service version is there exactly when the [version]
    argument is not empty, the environment exactly when the configuration
    has one; nothing else is asked for, and no key twice. The
    [ServiceVersion] field of the configuration plays no part. *)
Theorem NewResource_attributes (ctx : Context) (cfg : Config)
    (version : string) (st : State) :
  ∃ attrs,
    NewResource ctx cfg version st
    = (sdk_resource_New ctx
         [sdk.WithAttributes attrs; sdk.WithProcessRuntimeDescription;
          sdk.WithOS; sdk.WithHost] (trace st),
       {| activeManager := activeManager st;
          trace := trace st
                   ++ [EvResourceNew ctx
                         [sdk.WithAttributes attrs;
                          sdk.WithProcessRuntimeDescription;
                          sdk.WithOS; sdk.WithHost]] |})
    ∧ head attrs = Some ("service.name", ServiceName cfg)
    ∧ (∀ v, ("service.version", v) ∈ attrs ↔ v = version ∧ version ≠ "")
    ∧ (∀ v, ("deployment.environment", v) ∈ attrs
            ↔ v = Environment cfg ∧ Environment cfg ≠ "")
    ∧ (∀ k v, (k, v) ∈ attrs →
         k ∈ ["service.name"; "service.version"; "deployment.environment"])
    ∧ NoDup attrs.*1
    ∧ ∀ sv,
        NewResource ctx
          {| Enabled := Enabled cfg; Endpoint := Endpoint cfg;
             Protocol := Protocol cfg; Insecure := Insecure cfg;
             ExportLogs := ExportLogs cfg; ExportMetrics := ExportMetrics cfg;
             ServiceName := ServiceName cfg; ServiceVersion := sv;
             Environment := Environment cfg; Headers := Headers cfg |}
          version st
        = NewResource ctx cfg version st.
Proof.
  eexists. split; [apply NewResource_eq |].
  split_and!.
  - reflexivity.
  - intros v.
    destruct (String.eqb_spec version ""),
      (String.eqb_spec (Environment cfg) "");
      cbn [app]; rewrite ?elem_of_cons, ?elem_of_nil;
      intuition congruence.
  - intros v.
    destruct (String.eqb_spec version ""),
      (String.eqb_spec (Environment cfg) "");
      cbn [app]; rewrite ?elem_of_cons, ?elem_of_nil;
      intuition congruence.
  - intros k v.
    destruct (String.eqb_spec version ""),
      (String.eqb_spec (Environment cfg) "");
      cbn [app]; rewrite ?elem_of_cons, ?elem_of_nil;
      intuition congruence.
  - destruct (String.eqb_spec version ""),
      (String.eqb_spec (Environment cfg) "");
      cbn [app fmap list_fmap fst];
      repeat (apply NoDup_cons; split;
              [rewrite ?elem_of_cons, ?elem_of_nil; intuition congruence |]);
      apply NoDup_nil_2.
  - intros sv. by rewrite !NewResource_eq.
Qed.

Lemma exporter_options_facts (cfg : Config) :
  head (exporter_options cfg) = Some (sdk.WithEndpoint (Endpoint cfg))
  ∧ (sdk.WithInsecure ∈ exporter_options cfg ↔ Insecure cfg = true)
  ∧ (∀ hs, sdk.WithHeaders hs ∈ exporter_options cfg
           ↔ hs = Headers cfg ∧ Headers cfg ≠ ∅)
  ∧ (∀ ep, sdk.WithEndpoint ep ∈ exporter_options cfg → ep = Endpoint cfg).
Proof.
  unfold exporter_options.
  assert (Hsz : (0 <? size (Headers cfg))%nat = true ↔ Headers cfg ≠ ∅).
  { rewrite Nat.ltb_lt. rewrite <- map_size_non_empty_iff. lia. }
  split_and!.
  - done.
  - destruct (Insecure cfg), (0 <? size (Headers cfg))%nat; cbn [app];
      rewrite ?elem_of_cons, ?elem_of_nil; intuition congruence.
  - intros hs.
    destruct (Insecure cfg), (0 <? size (Headers cfg))%nat; cbn [app];
      rewrite ?elem_of_cons, ?elem_of_nil; intuition congruence.
  - intros ep.
    destruct (Insecure cfg), (0 <? size (Headers cfg))%nat; cbn [app];
      rewrite ?elem_of_cons, ?elem_of_nil; intuition congruence.
Qed.

(** X12. The log exporter and the metric reader of one configuration are
    built by one constructor call each, with the same transport and the same
    options: HTTP exactly when the protocol is the string "http" and gRPC
    for anything else, the endpoint first, the insecure option exactly when
    the flag is set, the headers exactly when there are any. *)
Theorem exporters_share_transport_and_options (ctx : Context) (cfg : Config)
    (st : State) :
  ∃ t opts,
    trace (createLogExporter ctx cfg st).2
    = trace st ++ [EvLogExporterNew t ctx opts]
    ∧ trace (createMetricReader ctx cfg st).2
      = trace st ++ [EvMetricExporterNew t ctx opts]
    ∧ (t = sdk.HTTP ↔ Protocol cfg = "http")
    ∧ (t = sdk.GRPC ↔ Protocol cfg ≠ "http")
    ∧ head opts = Some (sdk.WithEndpoint (Endpoint cfg))
    ∧ (sdk.WithInsecure ∈ opts ↔ Insecure cfg = true)
    ∧ (∀ hs, sdk.WithHeaders hs ∈ opts ↔ hs = Headers cfg ∧ Headers cfg ≠ ∅)
    ∧ (∀ ep, sdk.WithEndpoint ep ∈ opts → ep = Endpoint cfg).
Proof.
  exists (transport_of cfg), (exporter_options cfg).
  rewrite createLogExporter_eq, createMetricReader_eq.
  destruct (exporter_options_facts cfg) as (Hh & Hi & Hhs & Hep).
  split_and!; try done.
  - unfold transport_of, protocolHTTP.
    destruct (String.eqb_spec (Protocol cfg) "http"); intuition congruence.
  - unfold transport_of, protocolHTTP.
    destruct (String.eqb_spec (Protocol cfg) "http"); intuition congruence.
Qed.

(** X13. Building an exporter gives either the exporter or an error, by the
    answer of the one constructor call. On failure there is no exporter and
    the error names what could not be created and carries the whole text of
    the constructor's error. On success the log exporter comes with its own
    shutdown function, and the metric reader is a periodic reader over the
    exporter with the thirty-second interval and timeout. *)
Theorem exporter_results (ctx : Context) (cfg : Config) (st : State) :
  let t := transport_of cfg in
  let opts := exporter_options cfg in
  match (createLogExporter ctx cfg st).1 with
  | Err e =>
      ∃ cause,
        sdk_otlplog_New t ctx opts (trace st) = Some cause
        ∧ containsSubstring (Error e) "log exporter: " = true
        ∧ ∀ text, containsSubstring (Error cause) text = true →
            containsSubstring (Error e) text = true
  | Ok (exp, fn) =>
      sdk_otlplog_New t ctx opts (trace st) = None
      ∧ exp = sdk.OtlpLogExporter t opts
      ∧ fn = sdk_LogExporter_Shutdown exp
  end
  ∧ match (createMetricReader ctx cfg st).1 with
    | Err e =>
        ∃ cause,
          sdk_otlpmetric_New t ctx opts (trace st) = Some cause
          ∧ containsSubstring (Error e) "metric exporter: " = true
          ∧ ∀ text, containsSubstring (Error cause) text = true →
              containsSubstring (Error e) text = true
    | Ok (reader, fn) =>
        sdk_otlpmetric_New t ctx opts (trace st) = None
        ∧ reader = sdk.NewPeriodicReader (sdk.OtlpMetricExporter t opts)
                     (30 * Second) (30 * Second)
        ∧ fn = sdk_MetricExporter_Shutdown (sdk.OtlpMetricExporter t opts)
    end.
Proof.
  intros t opts. subst t opts.
  rewrite createLogExporter_eq, createMetricReader_eq. cbn [fst].
  split.
  - destruct (sdk_otlplog_New _ _ _ _) as [cause |]; [| done].
    exists cause. split; [done |]. split.
    + apply substring_search_correct.
      destruct (transport_of cfg); cbn [Error Errorf_w].
      * exists "failed to create OTLP HTTP ", (Error cause). reflexivity.
      * exists "failed to create OTLP gRPC ", (Error cause). reflexivity.
    + intros text. apply wrapped_error_occurs.
  - destruct (sdk_otlpmetric_New _ _ _ _) as [cause |]; [| done].
    exists cause. split; [done |]. split.
    + apply substring_search_correct.
      destruct (transport_of cfg); cbn [Error Errorf_w].
      * exists "failed to create OTLP HTTP ", (Error cause). reflexivity.
      * exists "failed to create OTLP gRPC ", (Error cause). reflexivity.
    + intros text. apply wrapped_error_occurs.
Qed.

End Builders.

(** ** The lifecycle as a whole *)

Lemma mutex_events_app (w1 w2 : World) :
  mutex_events (w1 ++ w2) = mutex_events w1 ++ mutex_events w2.
Proof. apply omap_app. Qed.

Lemma mutex_events_cons (e : Event) (w : World) :
  mutex_events (e :: w) = (if is_mutex e then [e] else []) ++ mutex_events w.
Proof. unfold mutex_events. simpl. by destruct (is_mutex e). Qed.

Lemma teardown_events_app (w1 w2 : World) :
  teardown_events (w1 ++ w2) = teardown_events w1 ++ teardown_events w2.
Proof. apply omap_app. Qed.

Lemma teardown_events_cons (e : Event) (w : World) :
  teardown_events (e :: w)
  = (if is_teardown e then [e] else []) ++ teardown_events w.
Proof. unfold teardown_events. simpl. by destruct (is_teardown e). Qed.

Lemma new_events_app (st st' : State) (new : World) :
  trace st' = trace st ++ new → new_events st st' = new.
Proof. intros Htr. unfold new_events. rewrite Htr. apply drop_app_length. Qed.

(** Teardown calls are teardown events and never touch the package
    mutex. *)
Lemma teardown_calls_observed (l : World) :
  Forall (λ e, is_teardown e = true) l →
  mutex_events l = [] ∧ teardown_events l = l.
Proof.
  induction 1 as [| e l He _ [IH1 IH2]]; [done |].
  rewrite mutex_events_cons, teardown_events_cons, IH1, IH2, He.
  by destruct e.
Qed.

Lemma teardown_steps_are_calls `{SDK} (m : manager) (ctx : Context) :
  Forall (λ e, is_teardown e = true) (teardown_steps m ctx).*1.
Proof.
  rewrite teardown_steps_events. rewrite !Forall_app. split_and!.
  - destruct (logHook m); by repeat constructor.
  - destruct (metricsBridge m); by repeat constructor.
  - apply Forall_fmap. by apply Forall_true.
Qed.

(** The calls of a teardown, all of them or the first [n]. *)
Lemma teardown_steps_observed `{SDK} (m : manager) (ctx : Context) (n : nat) :
  mutex_events (teardown_steps m ctx).*1 = []
  ∧ teardown_events (teardown_steps m ctx).*1 = (teardown_steps m ctx).*1
  ∧ mutex_events (take n (teardown_steps m ctx).*1) = []
  ∧ teardown_events (take n (teardown_steps m ctx).*1)
    = take n (teardown_steps m ctx).*1.
Proof.
  pose proof (teardown_steps_are_calls m ctx) as Hall.
  destruct (teardown_calls_observed _ Hall) as [H1 H2].
  assert (Htake : Forall (λ e, is_teardown e = true)
                    (take n (teardown_steps m ctx).*1))
    by (by apply Forall_take).
  destruct (teardown_calls_observed _ Htake) as [H3 H4].
  done.
Qed.

(** The converse of [run_steps_fault]: the run stops at the first step that
    faults. *)
Lemma run_steps_first_fault (steps : list TeardownStep) (w : World) (i : nat)
    (e : Event) (answer : World → outcome (option error)) (p : PanicValue) :
  steps !! i = Some (e, answer) →
  answer (w ++ take i steps.*1) = Panicked p →
  no_fault (take i steps) w →
  run_steps steps w = (Panicked p, w ++ take (S i) steps.*1).
Proof.
  revert w i. induction steps as [| [e' answer'] rest IH];
    intros w i Hi Ha Hnf; [done |].
  destruct i as [| i].
  - injection Hi as -> ->. simpl in Ha. rewrite app_nil_r in Ha.
    simpl. by rewrite Ha.
  - simpl in Hnf. apply no_fault_cons in Hnf as [[err Herr] Hrest].
    simpl. rewrite Herr.
    rewrite (IH (w ++ [e']) i Hi); [| | done].
    + simpl. by rewrite <- app_assoc.
    + simpl in Ha. by rewrite <- app_assoc.
Qed.

Section LifecycleMore.
Context `{SDK}.

Lemma accessors_run (st : State) :
  GetLogHook st
  = (activeManager st ≫= logHook,
     {| activeManager := activeManager st;
        trace := trace st ++ [EvMuLock; EvMuUnlock] |})
  ∧ GetMetricsBridge st
    = (activeManager st ≫= metricsBridge,
       {| activeManager := activeManager st;
          trace := trace st ++ [EvMuLock; EvMuUnlock] |}).
Proof.
  unfold GetLogHook, GetMetricsBridge, bind, event, getActiveManager, ret.
  cbn [activeManager trace]. rewrite <- !app_assoc. cbn [app].
  by destruct (activeManager st).
Qed.

(** What [Shutdown] adds to the trace and leaves in the slot: the mutex
    taken, the log line and the first calls of the teardown when there is a
    manager, the mutex released. All calls are made and the slot is emptied
    when it returns; the slot is left alone when it faults. *)
Lemma Shutdown_events (ctx : Context) (st : State) :
  ∃ n,
    new_events st (Shutdown ctx st).2
    = [EvMuLock]
      ++ match activeManager st with
         | Some m =>
             EvLogrus logrus.InfoLevel "Shutting down OTEL integration" None
             :: take n (teardown_steps m ctx).*1
         | None => []
         end
      ++ [EvMuUnlock]
    ∧ (∀ res, (Shutdown ctx st).1 = Returned res →
         activeManager (Shutdown ctx st).2 = None
         ∧ ∀ m, activeManager st = Some m →
             take n (teardown_steps m ctx).*1 = (teardown_steps m ctx).*1)
    ∧ (∀ p, (Shutdown ctx st).1 = Panicked p →
         activeManager (Shutdown ctx st).2 = activeManager st).
Proof.
  rewrite Shutdown_run. destruct (activeManager st) as [m |] eqn:Hm.
  - cbn zeta.
    set (w0 := trace st
               ++ [EvMuLock;
                   EvLogrus logrus.InfoLevel
                     "Shutting down OTEL integration" None]).
    destruct (run_steps (teardown_steps m ctx) w0).1 as [errs | p] eqn:Hout.
    + pose proof (run_steps_returned _ _ errs Hout) as Hnf.
      rewrite (run_steps_no_fault _ _ Hnf). cbn [fst snd].
      exists (length (teardown_steps m ctx).*1). rewrite firstn_all.
      split_and!.
      * apply new_events_app. cbn [trace]. unfold w0.
        rewrite <- !app_assoc. reflexivity.
      * intros res _. split; [done |]. intros m' [= <-]. apply firstn_all.
      * intros p Hp. discriminate Hp.
    + destruct (run_steps_prefix (teardown_steps m ctx) w0) as [n Hn].
      rewrite Hn. exists n. split_and!.
      * apply new_events_app. cbn [trace]. unfold w0.
        rewrite <- !app_assoc. reflexivity.
      * intros res Hres. discriminate Hres.
      * by intros p' _.
  - exists 0%nat. split_and!.
    + by apply new_events_app.
    + intros res _. split; [done |]. by intros m'.
    + by intros p _.
Qed.

(** X14. The accessors only read: they return the hook, or the bridge, of
    the active manager, nil when there is no manager or the manager has
    none; they leave the slot as it is and only take and release the
    mutex. After a [Shutdown] that returned, whatever it tore down and
    whatever it returned, both return nil; after a [Shutdown] that faulted
    they return what they returned before it. *)
Theorem accessors_read_only (ctx : Context) (st : State) :
  (GetLogHook st).1 = activeManager st ≫= logHook
  ∧ (GetMetricsBridge st).1 = activeManager st ≫= metricsBridge
  ∧ activeManager (GetLogHook st).2 = activeManager st
  ∧ activeManager (GetMetricsBridge st).2 = activeManager st
  ∧ new_events st (GetLogHook st).2 = [EvMuLock; EvMuUnlock]
  ∧ new_events st (GetMetricsBridge st).2 = [EvMuLock; EvMuUnlock]
  ∧ (activeManager st = None →
     (GetLogHook st).1 = None ∧ (GetMetricsBridge st).1 = None)
  ∧ (∀ res, (Shutdown ctx st).1 = Returned res →
       (GetLogHook (Shutdown ctx st).2).1 = None
       ∧ (GetMetricsBridge (Shutdown ctx st).2).1 = None)
  ∧ (∀ p, (Shutdown ctx st).1 = Panicked p →
       (GetLogHook (Shutdown ctx st).2).1 = (GetLogHook st).1
       ∧ (GetMetricsBridge (Shutdown ctx st).2).1
         = (GetMetricsBridge st).1).
Proof.
  destruct (accessors_run st) as [Hh Hb].
  destruct (accessors_run (Shutdown ctx st).2) as [Hh2 Hb2].
  destruct (Shutdown_events ctx st) as (n & _ & Hret & Hfault).
  rewrite Hh, Hb, Hh2, Hb2. cbn [fst snd activeManager].
  split_and!; try done.
  - by apply new_events_app.
  - by apply new_events_app.
  - by intros ->.
  - intros res Hres. destruct (Hret res Hres) as [-> _]. done.
  - intros p Hp. by rewrite (Hfault p Hp).
Qed.

End LifecycleMore.

(** A [Shutdown] that returns and one that faults, each followed by the
    accessors. *)
Lemma accessors_read_only_witness :
  (@Shutdown failingSDK Background activeState).1
  = Returned (Some (errorString
      ("OTEL shutdown errors: [log hook shutdown: context canceled "
       +:+ "metrics bridge shutdown: reader is shutdown "
       +:+ "exporter shutdown: exporter connection reset]")))
  ∧ (@GetLogHook (@Shutdown failingSDK Background activeState).2).1 = None
  ∧ (@Shutdown quietSDK Background dummyState).1 = Panicked nilDereference
  ∧ (@GetLogHook (@Shutdown quietSDK Background dummyState).2).1
    = Some dummyHook.
Proof.
  destruct (@accessors_read_only failingSDK Background activeState)
    as (_ & _ & _ & _ & _ & _ & _ & Hret & _).
  destruct (@accessors_read_only quietSDK Background dummyState)
    as (_ & _ & _ & _ & _ & _ & _ & _ & Hfault).
  assert (H1 : (@Shutdown failingSDK Background activeState).1
               = Returned (Some (errorString
                   ("OTEL shutdown errors: [log hook shutdown: context canceled "
                    +:+ "metrics bridge shutdown: reader is shutdown "
                    +:+ "exporter shutdown: exporter connection reset]"))))
    by (vm_compute; reflexivity).
  assert (H2 : (@Shutdown quietSDK Background dummyState).1
               = Panicked nilDereference) by (vm_compute; reflexivity).
  split; [exact H1 |]. split; [exact (proj1 (Hret _ H1)) |].
  split; [exact H2 |].
  rewrite (proj1 (Hfault _ H2)). vm_compute. reflexivity.
Defined.

Section StartShape.
Context `{SDK}.

Local Ltac run_enabled :=
  repeat first
    [ progress (cbn beta iota zeta;
                cbn [activeManager trace fst snd logHook metricsBridge
                     shutdownFuncs config set_logHook set_metricsBridge
                     newOTELLogHookFromExporter newMetricsBridgeFromReader])
    | rewrite manager_shutdown_steps
    | match goal with
      | Hrun : run_steps _ _ = _ |- _ => rewrite Hrun
      end
    | rewrite NewResource_eq
    | rewrite createLogExporter_eq
    | rewrite createMetricReader_eq
    | match goal with
      | |- context [joined_error ?x] => destruct (joined_error x) eqn:?
      | |- context [sdk_resource_New ?a ?b ?c] =>
          destruct (sdk_resource_New a b c) as [? [? |]] eqn:?
      | |- context [sdk_otlplog_New ?a ?b ?c ?d] =>
          destruct (sdk_otlplog_New a b c d) eqn:?
      | |- context [sdk_otlpmetric_New ?a ?b ?c ?d] =>
          destruct (sdk_otlpmetric_New a b c d) eqn:?
      | |- context [if ExportLogs ?c then _ else _] =>
          destruct (ExportLogs c) eqn:?
      | |- context [if ExportMetrics ?c then _ else _] =>
          destruct (ExportMetrics c) eqn:?
      end ].

Local Ltac observe :=
  repeat first
    [ rewrite mutex_events_app
    | rewrite mutex_events_cons
    | rewrite teardown_events_app
    | rewrite teardown_events_cons
    | rewrite (proj1 (teardown_steps_observed _ _ 0))
    | rewrite (proj1 (proj2 (teardown_steps_observed _ _ 0))) ];
  cbn [is_mutex is_teardown app]; rewrite ?app_nil_r.

Lemma Start_teardown_trace_nested (st : State) :
  Start_teardown_trace st
  = ((trace st ++ [EvMuLock])
     ++ [EvLogrus logrus.InfoLevel
           "Shutting down previous OTEL manager before reinitializing" None])
    ++ [EvLogrus logrus.InfoLevel "Shutting down OTEL integration" None].
Proof. unfold Start_teardown_trace. by rewrite <- !app_assoc. Qed.

(** What an enabled [Start] leaves behind when the teardown of the manager
    in the slot does not fault: the manager it installs and the mutex and
    teardown events it adds. *)
Lemma Start_enabled_shape (ctx : Context) (cfg : Config) (version : string)
    (logger : option logrus.Logger) (st : State) :
  Enabled cfg = true →
  Endpoint cfg ≠ "" →
  (∀ m, activeManager st = Some m →
     no_fault (teardown_steps m ctx) (Start_teardown_trace st)) →
  ∃ hook bridge new,
    Start ctx cfg version logger st
    = (Returned None,
       {| activeManager :=
            Some {| logHook := hook; metricsBridge := bridge;
                    shutdownFuncs := []; config := cfg |};
          trace := trace st ++ new |})
    ∧ mutex_events new = [EvMuLock; EvMuUnlock]
    ∧ teardown_events new
      = match activeManager st with
        | Some m => (teardown_steps m ctx).*1
        | None => []
        end
    ∧ (∀ hk, hook = Some hk →
         EvAddHook logger hk ∈ new
         ∧ is_Some (loggerProvider hk)
         ∧ is_Some (otelLogger hk)
         ∧ context hk = ∅)
    ∧ (∀ b, bridge = Some b → is_Some (meterProvider b)).
Proof.
  intros Hon Hep Hprev.
  unfold Start. rewrite Hon. cbn [negb].
  destruct (String.eqb_spec (Endpoint cfg) ""); [done |].
  unfold deferred, bindP, returns, bind, getActiveManager, setActiveManager,
    logrus_log, ret, event.
  destruct (activeManager st) as [m |] eqn:Hm.
  - pose proof (run_steps_no_fault _ _ (Hprev m eq_refl)) as Hrun.
    clear Hprev. rewrite Start_teardown_trace_nested in Hrun.
    run_enabled.
    all: eexists _, _, _.
    all: split;
      [ f_equal; f_equal; rewrite <- ?app_assoc; cbn [app]; reflexivity |].
    all: split; [observe; reflexivity |].
    all: split; [observe; reflexivity |].
    all: split;
      [ intros hk Hhk;
        first [ discriminate Hhk
              | injection Hhk as <-;
                split_and!;
                first [ by eexists
                      | reflexivity
                      | solve [repeat first
                                 [ apply list_elem_of_here
                                 | apply list_elem_of_further
                                 | apply elem_of_app; right ]] ] ]
      | intros b Hb;
        first [discriminate Hb | injection Hb as <-; by eexists] ].
  - clear Hprev. run_enabled.
    all: eexists _, _, _.
    all: split;
      [ f_equal; f_equal; rewrite <- ?app_assoc; cbn [app]; reflexivity |].
    all: split; [observe; reflexivity |].
    all: split; [observe; reflexivity |].
    all: split;
      [ intros hk Hhk;
        first [ discriminate Hhk
              | injection Hhk as <-;
                split_and!;
                first [ by eexists
                      | reflexivity
                      | solve [repeat first
                                 [ apply list_elem_of_here
                                 | apply list_elem_of_further
                                 | apply elem_of_app; right ]] ] ]
      | intros b Hb;
        first [discriminate Hb | injection Hb as <-; by eexists] ].
Qed.

(** An enabled [Start] over a manager whose teardown faults: the fault
    comes out of [Start] after the deferred unlock, nothing after the
    teardown runs, and the manager stays in the slot. *)
Lemma Start_enabled_fault (ctx : Context) (cfg : Config) (version : string)
    (logger : option logrus.Logger) (st : State) (m : manager)
    (p : PanicValue) :
  Enabled cfg = true →
  Endpoint cfg ≠ "" →
  activeManager st = Some m →
  (run_steps (teardown_steps m ctx) (Start_teardown_trace st)).1
  = Panicked p →
  Start ctx cfg version logger st
  = (Panicked p,
     {| activeManager := Some m;
        trace := (run_steps (teardown_steps m ctx)
                    (Start_teardown_trace st)).2 ++ [EvMuUnlock] |}).
Proof.
  intros Hon Hep Hm Hp.
  unfold Start. rewrite Hon. cbn [negb].
  destruct (String.eqb_spec (Endpoint cfg) ""); [done |].
  unfold deferred, bindP, returns, bind, getActiveManager, setActiveManager,
    logrus_log, ret, event.
  cbn [activeManager trace]. rewrite Hm.
  rewrite manager_shutdown_steps. cbn [activeManager trace fst snd].
  rewrite Start_teardown_trace_nested in *.
  rewrite Hp. reflexivity.
Qed.

(** An enabled [Start] that returned did not meet a fault in the teardown
    of the manager in the slot. *)
Lemma Start_returned_no_fault (ctx : Context) (cfg : Config)
    (version : string) (logger : option logrus.Logger) (st : State)
    (res : option error) :
  Enabled cfg = true →
  Endpoint cfg ≠ "" →
  (Start ctx cfg version logger st).1 = Returned res →
  ∀ m, activeManager st = Some m →
    no_fault (teardown_steps m ctx) (Start_teardown_trace st).
Proof.
  intros Hon Hep Hret m Hm.
  destruct (run_steps (teardown_steps m ctx) (Start_teardown_trace st)).1
    as [errs | p] eqn:Hout.
  - by apply (run_steps_returned _ _ errs).
  - rewrite (Start_enabled_fault ctx cfg version logger st m p) in Hret
      by done.
    discriminate Hret.
Qed.

(** What an enabled [Start] adds to the trace, however it ends: the mutex
    taken once and released once, and the first calls of the teardown of
    the manager in the slot; all of them, and a manager of the new
    configuration in the slot, when it returns; the slot left alone when it
    faults. *)
Lemma Start_enabled_events (ctx : Context) (cfg : Config) (version : string)
    (logger : option logrus.Logger) (st : State) :
  Enabled cfg = true →
  Endpoint cfg ≠ "" →
  let r := Start ctx cfg version logger st in
  ∃ n,
    mutex_events (new_events st r.2) = [EvMuLock; EvMuUnlock]
    ∧ teardown_events (new_events st r.2)
      = match activeManager st with
        | Some m => take n (teardown_steps m ctx).*1
        | None => []
        end
    ∧ (∀ res, r.1 = Returned res →
         res = None
         ∧ config <$> activeManager r.2 = Some cfg
         ∧ ∀ m, activeManager st = Some m →
             take n (teardown_steps m ctx).*1 = (teardown_steps m ctx).*1)
    ∧ (∀ p, r.1 = Panicked p → activeManager r.2 = activeManager st).
Proof.
  intros Hon Hep r. subst r.
  assert (Hreturns :
    (∀ m, activeManager st = Some m →
       no_fault (teardown_steps m ctx) (Start_teardown_trace st)) →
    ∃ n,
      mutex_events (new_events st (Start ctx cfg version logger st).2)
      = [EvMuLock; EvMuUnlock]
      ∧ teardown_events (new_events st (Start ctx cfg version logger st).2)
        = match activeManager st with
          | Some m => take n (teardown_steps m ctx).*1
          | None => []
          end
      ∧ (∀ res, (Start ctx cfg version logger st).1 = Returned res →
           res = None
           ∧ config <$> activeManager (Start ctx cfg version logger st).2
             = Some cfg
           ∧ ∀ m, activeManager st = Some m →
               take n (teardown_steps m ctx).*1 = (teardown_steps m ctx).*1)
      ∧ (∀ p, (Start ctx cfg version logger st).1 = Panicked p →
           activeManager (Start ctx cfg version logger st).2
           = activeManager st)).
  { intros Hprev.
    destruct (Start_enabled_shape ctx cfg version logger st Hon Hep Hprev)
      as (hook & bridge & new & -> & Hmu & Htd & _).
    cbn [fst snd]. rewrite (new_events_app _ _ new) by done.
    exists (match activeManager st with
            | Some m => length (teardown_steps m ctx).*1
            | None => 0%nat
            end).
    split_and!; [done | | | intros p Hp; discriminate Hp].
    - rewrite Htd. destruct (activeManager st); [| done].
      by rewrite firstn_all.
    - intros res [= <-]. split_and!; [done | done |].
      intros m ->. apply firstn_all. }
  destruct (activeManager st) as [m |] eqn:Hm; [| by apply Hreturns].
  destruct (run_steps (teardown_steps m ctx) (Start_teardown_trace st)).1
    as [errs | p] eqn:Hout.
  - apply Hreturns. intros m' [= <-]. by apply (run_steps_returned _ _ errs).
  - clear Hreturns.
    rewrite (Start_enabled_fault ctx cfg version logger st m p) by done.
    cbn [fst snd].
    destruct (run_steps_prefix (teardown_steps m ctx)
                (Start_teardown_trace st)) as [n Hn].
    rewrite Hn. exists n.
    rewrite (new_events_app st _
               ([EvMuLock;
                 EvLogrus logrus.InfoLevel
                   "Shutting down previous OTEL manager before reinitializing"
                   None;
                 EvLogrus logrus.InfoLevel "Shutting down OTEL integration"
                   None]
                ++ take n (teardown_steps m ctx).*1 ++ [EvMuUnlock])).
    2:{ cbn [trace]. unfold Start_teardown_trace.
        by rewrite <- !app_assoc. }
    destruct (teardown_steps_observed m ctx n) as (_ & _ & Hmu & Htd).
    split_and!.
    + rewrite !mutex_events_app, !mutex_events_cons, Hmu. done.
    + rewrite !teardown_events_app, !teardown_events_cons, Htd.
      cbn [is_teardown app teardown_events omap list_omap].
      by rewrite app_nil_r.
    + intros res Hres. discriminate Hres.
    + by intros p' _.
Qed.

(** The teardown of a manager without callbacks whose hook and bridge have
    their providers faults only if a provider's shutdown does. *)
Lemma installed_no_fault (hook : option OTELLogHook)
    (bridge : option MetricsBridge) (cfg : Config) (ctx : Context)
    (w : World) :
  (∀ p c w', ∃ err, sdk_LoggerProvider_Shutdown p c w' = Returned err) →
  (∀ p c w', ∃ err, sdk_MeterProvider_Shutdown p c w' = Returned err) →
  (∀ hk, hook = Some hk → is_Some (loggerProvider hk)) →
  (∀ b, bridge = Some b → is_Some (meterProvider b)) →
  no_fault
    (teardown_steps {| logHook := hook; metricsBridge := bridge;
                       shutdownFuncs := []; config := cfg |} ctx) w.
Proof.
  intros HL HM Hh Hb. unfold teardown_steps.
  cbn [logHook metricsBridge shutdownFuncs callback_steps].
  destruct hook as [hk |], bridge as [b |]; cbn [app];
    repeat match goal with
           | |- no_fault [] _ => by intros i e answer Hi
           | |- no_fault (_ :: _) _ => apply no_fault_cons; split
           end;
    cbn beta.
  all: first
    [ destruct (Hh hk eq_refl) as [p ->];
      cbn [LoggerProvider_Shutdown_answer];
      match goal with
      | |- context [sdk_LoggerProvider_Shutdown ?a ?c ?w'] =>
          destruct (HL a c w') as [err ->]
      end; by eexists
    | destruct (Hb b eq_refl) as [p ->];
      cbn [MeterProvider_Shutdown_answer];
      match goal with
      | |- context [sdk_MeterProvider_Shutdown ?a ?c ?w'] =>
          destruct (HM a c w') as [err ->]
      end; by eexists ].
Qed.

End StartShape.

Section LifecycleComposed.
Context `{SDK}.

(** X15. [Start] then [Shutdown]. After an enabled [Start] that returned,
    the hook the accessor returns is the one [Start] registered with
    logrus; it has its provider and logger and an empty label map, and the
    bridge has its provider. The manager [Start] installs has no callbacks:
    the next [Shutdown] makes at most two teardown calls, the shutdown of
    that hook's provider under a fresh fifteen-second context and then the
    shutdown of that bridge's provider under the caller's context. When it
    returns it has made both, the slot is empty and both accessors return
    nil; and it does return whenever the providers' shutdowns return, no
    provider of an installed manager being nil. *)
Theorem Start_then_Shutdown (ctx ctx' : Context) (cfg : Config)
    (version : string) (logger : option logrus.Logger) (st : State)
    (res : option error) :
  Enabled cfg = true →
  Endpoint cfg ≠ "" →
  (Start ctx cfg version logger st).1 = Returned res →
  let s1 := (Start ctx cfg version logger st).2 in
  let r2 := Shutdown ctx' s1 in
  let calls :=
    match (GetLogHook s1).1 with
    | Some hk =>
        [EvLoggerProviderShutdown (loggerProvider hk)
           (WithTimeout Background (15 * Second))]
    | None => []
    end
    ++ match (GetMetricsBridge s1).1 with
       | Some b => [EvMeterProviderShutdown (meterProvider b) ctx']
       | None => []
       end in
  (∀ hk, (GetLogHook s1).1 = Some hk →
     EvAddHook logger hk ∈ new_events st s1
     ∧ is_Some (loggerProvider hk)
     ∧ is_Some (otelLogger hk)
     ∧ context hk = ∅)
  ∧ (∀ b, (GetMetricsBridge s1).1 = Some b → is_Some (meterProvider b))
  ∧ (∃ n, teardown_events (new_events s1 r2.2) = take n calls)
  ∧ (∀ res2, r2.1 = Returned res2 →
       teardown_events (new_events s1 r2.2) = calls
       ∧ activeManager r2.2 = None
       ∧ (GetLogHook r2.2).1 = None
       ∧ (GetMetricsBridge r2.2).1 = None)
  ∧ ((∀ p c w, ∃ err, sdk_LoggerProvider_Shutdown p c w = Returned err) →
     (∀ p c w, ∃ err, sdk_MeterProvider_Shutdown p c w = Returned err) →
     ∃ res2, r2.1 = Returned res2).
Proof.
  intros Hon Hep Hret s1 r2 calls. subst calls r2 s1.
  pose proof (Start_returned_no_fault ctx cfg version logger st res Hon Hep
                Hret) as Hprev.
  destruct (Start_enabled_shape ctx cfg version logger st Hon Hep Hprev)
    as (hook & bridge & new & Heq & _ & _ & Hhook & Hbridge).
  rewrite Heq. clear Heq Hret Hprev. cbn [snd].
  set (mgr := {| logHook := hook; metricsBridge := bridge;
                 shutdownFuncs := []; config := cfg |}).
  set (s1 := {| activeManager := Some mgr; trace := trace st ++ new |}).
  destruct (accessors_run s1) as [-> ->].
  destruct (accessors_run (Shutdown ctx' s1).2) as [-> ->].
  cbn [fst snd activeManager s1 mbind option_bind logHook metricsBridge mgr].
  destruct (Shutdown_events ctx' s1) as (n & Hnew & Hreturned & _).
  cbn [activeManager s1] in Hnew, Hreturned.
  assert (Hcalls :
    (teardown_steps mgr ctx').*1
    = match hook with
      | Some hk =>
          [EvLoggerProviderShutdown (loggerProvider hk)
             (WithTimeout Background (15 * Second))]
      | None => []
      end
      ++ match bridge with
         | Some b => [EvMeterProviderShutdown (meterProvider b) ctx']
         | None => []
         end).
  { rewrite teardown_steps_events.
    cbn [logHook metricsBridge shutdownFuncs mgr length seq fmap list_fmap].
    rewrite app_nil_r. by destruct hook, bridge. }
  assert (Htd :
    teardown_events (new_events s1 (Shutdown ctx' s1).2)
    = take n (teardown_steps mgr ctx').*1).
  { rewrite Hnew.
    destruct (teardown_steps_observed mgr ctx' n) as (_ & _ & _ & Ht).
    rewrite !teardown_events_app, !teardown_events_cons, Ht.
    cbn [is_teardown app teardown_events omap list_omap].
    by rewrite app_nil_r. }
  split_and!.
  - intros hk Hhk. rewrite (new_events_app st s1 new) by done.
    by apply Hhook.
  - exact Hbridge.
  - exists n. by rewrite Htd, Hcalls.
  - intros res2 Hres2. destruct (Hreturned res2 Hres2) as [Hnone Hall].
    rewrite Htd, (Hall mgr eq_refl), Hcalls, Hnone. done.
  - intros HL HM.
    assert (Hnf : no_fault (teardown_steps mgr ctx')
                    (trace s1
                     ++ [EvMuLock;
                         EvLogrus logrus.InfoLevel
                           "Shutting down OTEL integration" None])).
    { apply installed_no_fault; [done | done | | done].
      intros hk Hhk. by destruct (Hhook hk Hhk) as (_ & ? & _). }
    rewrite Shutdown_run. cbn [activeManager s1]. cbn zeta.
    rewrite (run_steps_no_fault _ _ Hnf). by eexists.
Qed.

(** X16. The package mutex is released on every path. An enabled [Start]
    with an endpoint, whatever fails inside it, and every [Shutdown] take
    it once and release it once; a [Start] that is disabled or has no
    endpoint never takes it; [Fire] and [UpdateContext] never touch it, the
    label map having a lock of its own. *)
Theorem mutex_released_on_every_path (ctx : Context) (cfg : Config)
    (version : string) (logger : option logrus.Logger) (st : State)
    (h : OTELLogHook) (entry : logrus.Entry) (ctxMap : gmap string string) :
  (Enabled cfg = true → Endpoint cfg ≠ "" →
   mutex_events (new_events st (Start ctx cfg version logger st).2)
   = [EvMuLock; EvMuUnlock])
  ∧ (Enabled cfg = false ∨ Endpoint cfg = "" →
     mutex_events (new_events st (Start ctx cfg version logger st).2) = [])
  ∧ mutex_events (new_events st (Shutdown ctx st).2) = [EvMuLock; EvMuUnlock]
  ∧ mutex_events (new_events st (Fire h entry st).2) = []
  ∧ mutex_events (new_events st (UpdateContext ctxMap h st).2) = [].
Proof.
  split_and!.
  - intros Hon Hep.
    by destruct (Start_enabled_events ctx cfg version logger st Hon Hep)
      as (n & Hmu & _).
  - intros Hoff. unfold Start.
    destruct (Enabled cfg) eqn:Hen; cbn [negb].
    + destruct Hoff as [Hoff | ->]; [done |]. cbn.
      unfold new_events. by rewrite drop_all.
    + unfold bind, logrus_log, event, ret. cbn [snd].
      by rewrite (new_events_app _ _
                    [EvLogrus logrus.InfoLevel "OTEL integration is disabled"
                       None]).
  - destruct (Shutdown_events ctx st) as (n & -> & _).
    destruct (activeManager st) as [m |]; [| done].
    destruct (teardown_steps_observed m ctx n) as (_ & _ & Hmu & _).
    rewrite !mutex_events_app, !mutex_events_cons, Hmu. done.
  - destruct (otelLogger h) as [lg |] eqn:Hlg.
    + destruct (Fire_trace h entry st lg Hlg) as [Htr _].
      by rewrite (new_events_app _ _ _ Htr).
    + destruct (Fire_by_outcome h entry st) as [_ ->].
      rewrite Fire_body_nil_logger by done. cbn [snd].
      by rewrite (new_events_app _ _ [EvRLock; EvRUnlock]).
  - rewrite (new_events_app _ _ [EvLock; EvUnlock]); [done |].
    unfold UpdateContext, bind, event, ret. simpl.
    by rewrite <- app_assoc.
Qed.

(** X18. [Start] twice. After an enabled [Start] that returned, a second
    enabled [Start] makes no teardown call but the shutdown of the hook's
    provider and then of the bridge's provider that the first installed,
    under the second call's context. When it returns it returns nil, has
    made both calls and leaves a manager with the second configuration in
    the slot; when it faults the first manager stays; and it does return
    whenever the providers' shutdowns return. *)
Theorem Start_twice_replaces (ctx1 ctx2 : Context) (cfg1 cfg2 : Config)
    (version : string) (logger : option logrus.Logger) (st : State)
    (res1 : option error) :
  Enabled cfg1 = true → Endpoint cfg1 ≠ "" →
  Enabled cfg2 = true → Endpoint cfg2 ≠ "" →
  (Start ctx1 cfg1 version logger st).1 = Returned res1 →
  let s1 := (Start ctx1 cfg1 version logger st).2 in
  let r2 := Start ctx2 cfg2 version logger s1 in
  let calls :=
    match (GetLogHook s1).1 with
    | Some hk =>
        [EvLoggerProviderShutdown (loggerProvider hk)
           (WithTimeout Background (15 * Second))]
    | None => []
    end
    ++ match (GetMetricsBridge s1).1 with
       | Some b => [EvMeterProviderShutdown (meterProvider b) ctx2]
       | None => []
       end in
  (∃ n, teardown_events (new_events s1 r2.2) = take n calls)
  ∧ (∀ res2, r2.1 = Returned res2 →
       res2 = None
       ∧ config <$> activeManager r2.2 = Some cfg2
       ∧ teardown_events (new_events s1 r2.2) = calls)
  ∧ (∀ p, r2.1 = Panicked p →
       activeManager r2.2 = activeManager s1
       ∧ config <$> activeManager r2.2 = Some cfg1)
  ∧ ((∀ p c w, ∃ err, sdk_LoggerProvider_Shutdown p c w = Returned err) →
     (∀ p c w, ∃ err, sdk_MeterProvider_Shutdown p c w = Returned err) →
     r2.1 = Returned None).
Proof.
  intros Hon1 Hep1 Hon2 Hep2 Hret s1 r2 calls. subst calls r2 s1.
  pose proof (Start_returned_no_fault ctx1 cfg1 version logger st res1 Hon1
                Hep1 Hret) as Hprev.
  destruct (Start_enabled_shape ctx1 cfg1 version logger st Hon1 Hep1 Hprev)
    as (hook & bridge & new & Heq & _ & _ & Hhook & Hbridge).
  rewrite Heq. clear Heq Hret Hprev. cbn [snd].
  set (mgr := {| logHook := hook; metricsBridge := bridge;
                 shutdownFuncs := []; config := cfg1 |}).
  set (s1 := {| activeManager := Some mgr; trace := trace st ++ new |}).
  destruct (accessors_run s1) as [-> ->].
  cbn [fst snd activeManager s1 mbind option_bind logHook metricsBridge mgr].
  destruct (Start_enabled_events ctx2 cfg2 version logger s1 Hon2 Hep2)
    as (n & _ & Htd & Hreturned & Hfault).
  cbn [activeManager s1] in Htd, Hreturned, Hfault.
  assert (Hcalls :
    (teardown_steps mgr ctx2).*1
    = match hook with
      | Some hk =>
          [EvLoggerProviderShutdown (loggerProvider hk)
             (WithTimeout Background (15 * Second))]
      | None => []
      end
      ++ match bridge with
         | Some b => [EvMeterProviderShutdown (meterProvider b) ctx2]
         | None => []
         end).
  { rewrite teardown_steps_events.
    cbn [logHook metricsBridge shutdownFuncs mgr length seq fmap list_fmap].
    rewrite app_nil_r. by destruct hook, bridge. }
  split_and!.
  - exists n. by rewrite Htd, Hcalls.
  - intros res2 Hres2.
    destruct (Hreturned res2 Hres2) as (-> & Hcfg & Hall).
    rewrite Htd, (Hall mgr eq_refl), Hcalls. done.
  - intros p Hp. by rewrite (Hfault p Hp).
  - intros HL HM.
    destruct (Start_enabled_shape ctx2 cfg2 version logger s1 Hon2 Hep2)
      as (hook2 & bridge2 & new2 & -> & _); [| done].
    intros m' [= <-]. apply installed_no_fault; [done | done | | done].
    intros hk Hhk. by destruct (Hhook hk Hhk) as (_ & ? & _).
Qed.

(** X19. A teardown call that faults ends the teardown and comes out of
    [shutdown], [Shutdown] and [Start] alike, nothing in them recovering
    it. When the step at position [i] is the first to fault, the calls made
    are those of the steps up to it and no later one; [Shutdown] and an
    enabled [Start] still release the mutex, leave the manager in the slot,
    and [Start] calls no constructor and installs nothing. *)
Theorem teardown_fault_propagates (ctx : Context) (cfg : Config)
    (version : string) (logger : option logrus.Logger) (st : State)
    (m : manager) (i : nat) (e : Event)
    (answer : World → outcome (option error)) (p : PanicValue) :
  let steps := teardown_steps m ctx in
  let first_fault (w : World) :=
    steps !! i = Some (e, answer)
    ∧ answer (w ++ take i steps.*1) = Panicked p
    ∧ no_fault (take i steps) w in
  let w0 := trace st
            ++ [EvLogrus logrus.InfoLevel "Shutting down OTEL integration"
                  None] in
  activeManager st = Some m →
  (first_fault w0 →
   manager_shutdown (Some m) ctx st
   = (Panicked p,
      {| activeManager := Some m; trace := w0 ++ take (S i) steps.*1 |}))
  ∧ (first_fault (Shutdown_teardown_trace st) →
     Shutdown ctx st
     = (Panicked p,
        {| activeManager := Some m;
           trace := Shutdown_teardown_trace st
                    ++ take (S i) steps.*1 ++ [EvMuUnlock] |}))
  ∧ (Enabled cfg = true → Endpoint cfg ≠ "" →
     first_fault (Start_teardown_trace st) →
     Start ctx cfg version logger st
     = (Panicked p,
        {| activeManager := Some m;
           trace := Start_teardown_trace st
                    ++ take (S i) steps.*1 ++ [EvMuUnlock] |})).
Proof.
  intros steps first_fault w0 Hm. split_and!.
  - intros (Hi & Ha & Hnf).
    rewrite manager_shutdown_steps. fold w0 steps.
    rewrite (run_steps_first_fault steps w0 i e answer p Hi Ha Hnf).
    cbn [fst snd]. by rewrite Hm.
  - intros (Hi & Ha & Hnf).
    rewrite Shutdown_run, Hm. cbn zeta.
    change (trace st
            ++ [EvMuLock;
                EvLogrus logrus.InfoLevel "Shutting down OTEL integration"
                  None])
      with (Shutdown_teardown_trace st).
    fold steps.
    rewrite (run_steps_first_fault steps _ i e answer p Hi Ha Hnf).
    cbn [fst snd]. by rewrite <- app_assoc.
  - intros Hon Hep (Hi & Ha & Hnf).
    pose proof (run_steps_first_fault steps _ i e answer p Hi Ha Hnf)
      as Hrun.
    rewrite (Start_enabled_fault ctx cfg version logger st m p Hon Hep Hm).
    + fold steps. rewrite Hrun. cbn [snd]. by rewrite <- app_assoc.
    + fold steps. by rewrite Hrun.
Qed.

End LifecycleComposed.

(** An enabled configuration over an active manager, then a shutdown, in a
    quiet world. *)
Lemma Start_then_Shutdown_witness :
  Enabled testConfig = true
  ∧ Endpoint testConfig ≠ ""
  ∧ (@Start quietSDK Background testConfig "1.0.0" None activeState).1
    = Returned None
  ∧ activeManager
      (@Shutdown quietSDK Background
         (@Start quietSDK Background testConfig "1.0.0" None activeState).2).2
    = None.
Proof.
  assert (Hret :
    (@Start quietSDK Background testConfig "1.0.0" None activeState).1
    = Returned None) by (vm_compute; reflexivity).
  split; [reflexivity |]. split; [discriminate |]. split; [exact Hret |].
  destruct (@Start_then_Shutdown quietSDK Background Background testConfig
              "1.0.0" None activeState None eq_refl
              ltac:(discriminate) Hret)
    as (_ & _ & _ & Hreturned & Hreturns).
  destruct Hreturns as [res2 Hres2]; [intros p c w; by eexists .. |].
  by destruct (Hreturned res2 Hres2) as (_ & Hslot & _).
Defined.

(** Two enabled starts in a row, in a quiet world. *)
Lemma Start_twice_replaces_witness :
  Enabled testConfig = true
  ∧ Endpoint testConfig ≠ ""
  ∧ (@Start quietSDK Background testConfig "1.0.0" None emptyState).1
    = Returned None
  ∧ (@Start quietSDK Background testConfig "1.0.0" None
       (@Start quietSDK Background testConfig "1.0.0" None emptyState).2).1
    = Returned None.
Proof.
  assert (Hret :
    (@Start quietSDK Background testConfig "1.0.0" None emptyState).1
    = Returned None) by (vm_compute; reflexivity).
  split; [reflexivity |]. split; [discriminate |]. split; [exact Hret |].
  destruct (@Start_twice_replaces quietSDK Background Background testConfig
              testConfig "1.0.0" None emptyState None eq_refl
              ltac:(discriminate) eq_refl ltac:(discriminate) Hret)
    as (_ & _ & _ & Hreturns).
  apply Hreturns; intros p c w; by eexists.
Defined.

(** The dummy manager: its first step, the hook's [Close], faults. *)
Lemma teardown_fault_propagates_witness :
  activeManager dummyState = Some dummyManager
  ∧ @Shutdown quietSDK Background dummyState
    = (Panicked nilDereference,
       {| activeManager := Some dummyManager;
          trace :=
            [EvMuLock;
             EvLogrus logrus.InfoLevel "Shutting down OTEL integration" None;
             EvLoggerProviderShutdown None
               (WithTimeout Background logHookCloseTimeout);
             EvMuUnlock] |}).
Proof.
  split; [reflexivity |].
  destruct (@teardown_fault_propagates quietSDK Background testConfig "1.0.0"
              None dummyState dummyManager 0%nat
              (EvLoggerProviderShutdown None
                 (WithTimeout Background logHookCloseTimeout))
              (λ w, wrapped "log hook shutdown: "
                      (@LoggerProvider_Shutdown_answer quietSDK None
                         (WithTimeout Background logHookCloseTimeout) w))
              nilDereference eq_refl)
    as (_ & Hshutdown & _).
  rewrite Hshutdown; [reflexivity |].
  split; [reflexivity |]. split; [reflexivity |].
  intros i e answer Hi. discriminate Hi.
Defined.

(** X17. The mapper only ever returns one of seven severities, all within
    the range the telemetry API defines and none of them the undefined
    severity 0. It reports the info severity for the info level and for
    values that are no level, and for nothing else. *)
Theorem mapLogrusLevel_range (level : Z) :
  mapLogrusLevel level
  ∈ [otellog.SeverityTrace; otellog.SeverityDebug; otellog.SeverityInfo;
     otellog.SeverityWarn; otellog.SeverityError; otellog.SeverityFatal;
     otellog.SeverityFatal4]
  ∧ 1 ≤ mapLogrusLevel level ≤ 24
  ∧ (mapLogrusLevel level = otellog.SeverityInfo
     ↔ level = logrus.InfoLevel ∨ level ∉ logrus.AllLevels).
Proof.
  destruct (decide (level ∈ logrus.AllLevels)) as [Hin | Hout].
  - unfold logrus.AllLevels in Hin.
    repeat (apply elem_of_cons in Hin as [-> | Hin]);
      try (by apply elem_of_nil in Hin);
      (split_and!;
       [ vm_compute;
         repeat first [apply list_elem_of_here | apply list_elem_of_further]
       | by vm_compute
       | by vm_compute
       | split;
         [ intros Heq; first [discriminate Heq | by left]
         | intros [Heq | Hout];
           first [ discriminate Heq | reflexivity
                 | exfalso; apply Hout; unfold logrus.AllLevels;
                   repeat first [ apply list_elem_of_here
                                | apply list_elem_of_further ] ] ] ]).
  - rewrite (mapLogrusLevel_default level Hout).
    split_and!; [| by vm_compute | by vm_compute | split; [by right | done]].
    repeat first [apply list_elem_of_here | apply list_elem_of_further].
Qed.

(** Two entries fired on the test hook, in a world whose exporter drops
    every record: both calls return nil and both records were handed
    over. *)
Lemma Fire_calls_one_record_each_witness :
  Forall (λ r, r = None)
    (@Fire_calls failingSDK testHook
       [testEntry logrus.InfoLevel; testEntry logrus.ErrorLevel]
       emptyState).1
  ∧ emitted_records
      (trace (@Fire_calls failingSDK testHook
                [testEntry logrus.InfoLevel; testEntry logrus.ErrorLevel]
                emptyState).2)
    = [entry_record testHook (testEntry logrus.InfoLevel);
       entry_record testHook (testEntry logrus.ErrorLevel)].
Proof.
  assert (Hall :
    Forall (λ r, r = None)
      (@Fire_calls failingSDK testHook
         [testEntry logrus.InfoLevel; testEntry logrus.ErrorLevel]
         emptyState).1).
  { vm_compute. repeat constructor. }
  split; [exact Hall |].
  apply (@Fire_calls_one_record_each failingSDK testHook
           [testEntry logrus.InfoLevel; testEntry logrus.ErrorLevel]
           emptyState Hall).
Defined.

(** One entry fired on the test hook: one field and one label. *)
Lemma Fire_attributes_not_merged_witness :
  otelLogger testHook
  = Some (sdk.ProviderLogger testProvider "drone-runner-aws")
  ∧ ∃ r,
      emitted_records
        (trace (@Fire quietSDK testHook (testEntry logrus.InfoLevel)
                  emptyState).2) = [r]
      ∧ length (otellog.Attributes r) = 2%nat.
Proof.
  split; [reflexivity |].
  destruct (@Fire_attributes_not_merged quietSDK testHook
              (testEntry logrus.InfoLevel) emptyState
              (sdk.ProviderLogger testProvider "drone-runner-aws")
              eq_refl) as (r & Hr & Hlen & _).
  exists r. split; [exact Hr |]. rewrite Hlen. vm_compute. reflexivity.
Defined.

(** A label set on the test hook, then one entry fired. *)
Lemma UpdateContext_then_Fire_witness :
  otelLogger testHook
  = Some (sdk.ProviderLogger testProvider "drone-runner-aws")
  ∧ ∃ r,
      trace (@Fire quietSDK
               (UpdateContext {[ "poolId" := "pool-1" ]} testHook
                  emptyState).1
               (testEntry logrus.InfoLevel)
               (UpdateContext {[ "poolId" := "pool-1" ]} testHook
                  emptyState).2).2
      = [EvLock; EvUnlock; EvRLock; EvRUnlock;
         EvEmit (sdk.ProviderLogger testProvider "drone-runner-aws")
           Background r]
      ∧ otellog.String "poolId" "pool-1" ∈ otellog.Attributes r.
Proof.
  split; [reflexivity |].
  destruct (@UpdateContext_then_Fire quietSDK {[ "poolId" := "pool-1" ]}
              testHook (testEntry logrus.InfoLevel) emptyState
              (sdk.ProviderLogger testProvider "drone-runner-aws") eq_refl)
    as (r & Htr & Hnew & _).
  exists r. split; [exact Htr |].
  apply Hnew. apply lookup_singleton_eq.
Defined.
